(** * dn2osdbk: DocUtils native XML to DocBook

    A shallow embedding of [os_doc_tools/dn2osdbk.py] and the
    verification of its specification.

    Conventions of the embedding.
    - The program is Python 2 code: a [str] is a byte string, modelled as
      [string]; [etree.tostring] returns a [str] that [write] accepts.
    - lxml is an external library.  Its tree API ([iter], [get], [find],
      [insert], attribute assignment) is modelled on an inductive tree; its
      parser, XSLT engine and serialiser are parameters (class [Platform]).
    - The file system is a flat map from path strings to contents, with a
      set of directories and a trace of the calls the program made.  Paths
      are compared as strings; the directory part of a glob pattern is
      taken literally.
    - An exception is a value of [exn]; every effectful method is a
      function [world -> (exn + A) * world], so that the state reached
      when an exception escapes stays observable. *)

From Stdlib Require Import String Ascii List Bool Arith Lia Permutation.
Import ListNotations.
Open Scope string_scope.

Set Implicit Arguments.

(* ================================================================== *)
(** * Strings *)

Definition nl : string := String "010"%char EmptyString.
Definition dq : string := String "034"%char EmptyString.

(** [c in s] for a one-character [c]. *)
Fixpoint str_in (c : ascii) (s : string) : bool :=
  match s with
  | EmptyString => false
  | String a r => Ascii.eqb a c || str_in c r
  end.

(** [s.split(' ')]: cut at every single space; never the empty list. *)
Fixpoint split_space (s : string) : list string :=
  match s with
  | EmptyString => [EmptyString]
  | String c r =>
      if Ascii.eqb c " "%char then EmptyString :: split_space r
      else match split_space r with
           | h :: t => String c h :: t
           | [] => [String c EmptyString]
           end
  end.

(** [sep.join(l)]. *)
Fixpoint str_join (sep : string) (l : list string) : string :=
  match l with
  | [] => EmptyString
  | [x] => x
  | x :: r => x ++ sep ++ str_join sep r
  end.

Definition lower_char (c : ascii) : ascii :=
  let n := nat_of_ascii c in
  if Nat.leb 65 n && Nat.leb n 90 then ascii_of_nat (n + 32) else c.

(** [s.lower()] on a byte string. *)
Fixpoint str_lower (s : string) : string :=
  match s with
  | EmptyString => EmptyString
  | String c r => String (lower_char c) (str_lower r)
  end.

(** [s.replace(a, b)] for one-character [a] and [b]. *)
Fixpoint str_replace (a b : ascii) (s : string) : string :=
  match s with
  | EmptyString => EmptyString
  | String c r => String (if Ascii.eqb c a then b else c) (str_replace a b r)
  end.

Fixpoint str_rev_onto (s acc : string) : string :=
  match s with
  | EmptyString => acc
  | String c r => str_rev_onto r (String c acc)
  end.

Definition str_rev (s : string) : string := str_rev_onto s EmptyString.

(** [s.startswith(p)] and [s.endswith(p)]. *)
Definition startswith (s p : string) : bool := String.prefix p s.
Definition endswith (s p : string) : bool :=
  String.prefix (str_rev p) (str_rev s).

Definition is_digit (c : ascii) : bool :=
  let n := nat_of_ascii c in Nat.leb 48 n && Nat.leb n 57.

(** [re.match(r'id\d+', s) is not None]: the pattern is anchored at the
    start only, so it holds as soon as [s] begins with [id] and one digit. *)
Definition re_match_id_digits (s : string) : bool :=
  match s with
  | String "i" (String "d" (String c _)) => is_digit c
  | _ => false
  end.

(* ================================================================== *)
(** * The [%] operator with a mapping on the right

    [fmt % d] for a dict [d] from [str] to [str], after CPython 2's
    [PyString_Format]: a conversion is [%], an optional [(key)], flags,
    a width, a precision, a length modifier and the conversion type. *)

Inductive exn : Type :=
| IOError
| OSError
| XMLSyntaxError
| XSLTParseError
| XSLTApplyError
| AttributeError
| TypeError
| ValueError
| KeyError
| NotImplementedError
| Unmodelled.

Inductive fmt_state : Type :=
| FText                                          (* outside a conversion *)
| FPercent                                       (* just after [%] *)
| FKey (pcount : nat) (rkey : string)            (* inside [%(...] *)
| FFlags (arg : option string) (minus : bool)
| FWidth (arg : option string) (minus : bool) (w : nat)
| FPrec (arg : option string) (minus : bool) (w : option nat) (p : nat)
        (fresh : bool)                           (* just after the dot *)
| FConv (arg : option string) (minus : bool) (w : option nat)
        (p : option nat).

Inductive fmt_action : Type :=
| Goto (st : fmt_state)
| Emit (s : string)
| Raise (e : exn).

(** Lookup in a dict, an attribute map or a directory of files. *)
Fixpoint assoc_get {V : Type} (d : list (string * V)) (k : string)
    : option V :=
  match d with
  | [] => None
  | (k', v) :: r => if String.eqb k' k then Some v else assoc_get r k
  end.

(** [d[k] = v]: an entry that is present keeps its place. *)
Fixpoint assoc_set {V : Type} (d : list (string * V)) (k : string) (v : V)
    : list (string * V) :=
  match d with
  | [] => [(k, v)]
  | (k', v') :: r =>
      if String.eqb k' k then (k, v) :: r else (k', v') :: assoc_set r k v
  end.

Fixpoint spaces (n : nat) : string :=
  match n with
  | O => EmptyString
  | S m => String " "%char (spaces m)
  end.

Fixpoint str_take (n : nat) (s : string) : string :=
  match n, s with
  | S m, String c r => String c (str_take m r)
  | _, _ => EmptyString
  end.

Definition fmt_pad (minus : bool) (w : option nat) (s : string) : string :=
  match w with
  | None => s
  | Some n =>
      if minus then s ++ spaces (n - String.length s)
      else spaces (n - String.length s) ++ s
  end.

Definition fmt_trunc (p : option nat) (s : string) : string :=
  match p with
  | None => s
  | Some n => str_take n s
  end.

Definition digit_val (c : ascii) : nat := nat_of_ascii c - 48.

(** The conversion type itself.  [arg] is the value found under the key;
    without a key the argument is the dict, whose [str()] is not modelled. *)
Definition fmt_convert (arg : option string) (minus : bool)
    (w p : option nat) (c : ascii) : fmt_action :=
  if Ascii.eqb c "%"%char then Emit (fmt_pad minus w "%")
  else if Ascii.eqb c "s"%char then
    match arg with
    | Some v => Emit (fmt_pad minus w (fmt_trunc p v))
    | None => Raise Unmodelled
    end
  else if Ascii.eqb c "r"%char then Raise Unmodelled
  else if Ascii.eqb c "c"%char then
    match arg with
    | Some v => if Nat.eqb (String.length v) 1 then Emit (fmt_pad minus w v)
                else Raise TypeError
    | None => Raise TypeError
    end
  else if str_in c "diouxXeEfFgG" then Raise TypeError
  else Raise ValueError.        (* unsupported format character *)

Definition fmt_after_prec (arg : option string) (minus : bool)
    (w p : option nat) (c : ascii) : fmt_action :=
  if str_in c "hlL" then Goto (FConv arg minus w p)
  else fmt_convert arg minus w p c.

Definition fmt_after_width (arg : option string) (minus : bool)
    (w : option nat) (c : ascii) : fmt_action :=
  if Ascii.eqb c "."%char then Goto (FPrec arg minus w 0 true)
  else fmt_after_prec arg minus w None c.

Definition fmt_after_flags (arg : option string) (minus : bool)
    (c : ascii) : fmt_action :=
  if Ascii.eqb c "*"%char then Raise TypeError          (* * wants int *)
  else if is_digit c then Goto (FWidth arg minus (digit_val c))
  else fmt_after_width arg minus None c.

Definition fmt_flags (arg : option string) (minus : bool)
    (c : ascii) : fmt_action :=
  if Ascii.eqb c "-"%char then Goto (FFlags arg true)
  else if str_in c "+ #0" then Goto (FFlags arg minus)
  else fmt_after_flags arg minus c.

Definition fmt_step (d : list (string * string)) (st : fmt_state)
    (c : ascii) : fmt_action :=
  match st with
  | FText =>
      if Ascii.eqb c "%"%char then Goto FPercent
      else Emit (String c EmptyString)
  | FPercent =>
      if Ascii.eqb c "("%char then Goto (FKey 1 EmptyString)
      else fmt_flags None false c
  | FKey pcount rkey =>
      if Ascii.eqb c ")"%char then
        match pcount with
        | 1 => match assoc_get d (str_rev rkey) with
               | Some v => Goto (FFlags (Some v) false)
               | None => Raise KeyError
               end
        | _ => Goto (FKey (pcount - 1) (String c rkey))
        end
      else if Ascii.eqb c "("%char then Goto (FKey (S pcount) (String c rkey))
      else Goto (FKey pcount (String c rkey))
  | FFlags arg minus => fmt_flags arg minus c
  | FWidth arg minus w =>
      if is_digit c then Goto (FWidth arg minus (10 * w + digit_val c))
      else fmt_after_width arg minus (Some w) c
  | FPrec arg minus w p fresh =>
      if fresh && Ascii.eqb c "*"%char then Raise TypeError
      else if is_digit c then
        Goto (FPrec arg minus w (10 * p + digit_val c) false)
      else fmt_after_prec arg minus w (Some p) c
  | FConv arg minus w p => fmt_convert arg minus w p c
  end.

Fixpoint fmt_run (d : list (string * string)) (st : fmt_state)
    (fmt : string) : exn + string :=
  match fmt with
  | EmptyString =>
      match st with
      | FText => inr EmptyString
      | _ => inl ValueError       (* incomplete format (key) *)
      end
  | String c rest =>
      match fmt_step d st c with
      | Goto st' => fmt_run d st' rest
      | Emit s =>
          match fmt_run d FText rest with
          | inr out => inr (s ++ out)
          | inl e => inl e
          end
      | Raise e => inl e
      end
  end.

Definition py_format (fmt : string) (d : list (string * string))
    : exn + string :=
  fmt_run d FText fmt.

(* ================================================================== *)
(** * os.path (posixpath) *)

(** [p.rfind('/') + 1] cuts [p] into the part up to and including the
    last slash and the part after it. *)
Fixpoint cut_last_slash (p : string) : string * string :=
  match p with
  | EmptyString => (EmptyString, EmptyString)
  | String c r =>
      let (h, t) := cut_last_slash r in
      if Ascii.eqb c "/"%char then (String c h, t)
      else match h with
           | EmptyString => (EmptyString, String c t)
           | _ => (String c h, t)
           end
  end.

Fixpoint all_slashes (s : string) : bool :=
  match s with
  | EmptyString => true
  | String c r => Ascii.eqb c "/"%char && all_slashes r
  end.

Fixpoint lstrip_slash (s : string) : string :=
  match s with
  | String c r => if Ascii.eqb c "/"%char then lstrip_slash r else s
  | EmptyString => EmptyString
  end.

(** [s.rstrip('/')]. *)
Definition rstrip_slash (s : string) : string :=
  str_rev (lstrip_slash (str_rev s)).

Definition os_path_split (p : string) : string * string :=
  let (head, tail) := cut_last_slash p in
  (if all_slashes head then head else rstrip_slash head, tail).

Definition os_path_dirname (p : string) : string := fst (os_path_split p).

Definition os_path_basename (p : string) : string := snd (cut_last_slash p).

Definition os_path_join (a b : string) : string :=
  if startswith b "/" then b
  else if String.eqb a EmptyString || endswith a "/" then a ++ b
  else a ++ "/" ++ b.

(* ================================================================== *)
(** * lxml trees

    Tags and attribute names are in Clark notation ([{namespace}local]).
    Comments and processing instructions are nodes of the tree, as in
    lxml, where [iter()] yields them and [get] on them answers [None]. *)

Definition attrib : Type := list (string * string).

Unset Elimination Schemes.
Inductive node : Type :=
| Element (tag : string) (attrs : attrib) (text : option string)
          (children : list node) (tail : option string)
| Comment (text : string) (tail : option string)
| PI (target : string) (text : string) (tail : option string).
Set Elimination Schemes.

(** Induction with the hypothesis on every child. *)
Fixpoint node_ind (P : node -> Prop)
    (HE : forall tag attrs text children tail,
        Forall P children -> P (Element tag attrs text children tail))
    (HC : forall text tail, P (Comment text tail))
    (HP : forall target text tail, P (PI target text tail))
    (n : node) : P n :=
  match n with
  | Element tag attrs text children tail =>
      HE tag attrs text children tail
         ((fix all (l : list node) : Forall P l :=
             match l with
             | [] => Forall_nil P
             | c :: r => Forall_cons c (node_ind HE HC HP c) (all r)
             end) children)
  | Comment text tail => HC text tail
  | PI target text tail => HP target text tail
  end.

Definition node_tag (n : node) : option string :=
  match n with
  | Element tag _ _ _ _ => Some tag
  | _ => None
  end.

Definition node_attrib (n : node) : attrib :=
  match n with
  | Element _ attrs _ _ _ => attrs
  | _ => []
  end.

Definition node_children (n : node) : list node :=
  match n with
  | Element _ _ _ children _ => children
  | _ => []
  end.

(** [n.text]. *)
Definition node_text (n : node) : option string :=
  match n with
  | Element _ _ text _ _ => text
  | Comment text _ => Some text
  | PI _ text _ => Some text
  end.

(** [n.get(k)]. *)
Definition get (n : node) (k : string) : option string :=
  assoc_get (node_attrib n) k.

Definition has_tag (t : string) (n : node) : bool :=
  match node_tag n with
  | Some t' => String.eqb t' t
  | None => false
  end.

(** [n.iter()]: the node and its descendants in document order. *)
Fixpoint iter (n : node) : list node :=
  n :: match n with
       | Element _ _ _ children _ => flat_map iter children
       | _ => []
       end.

(** [n.iter(tag)]. *)
Definition iter_tag (t : string) (n : node) : list node :=
  filter (has_tag t) (iter n).

(** [n.find('section/title')]: the first [title] child of a [section]
    child of [n]. *)
Definition find_section_title (n : node) : option node :=
  hd_error
    (flat_map (fun s => filter (has_tag "title") (node_children s))
              (filter (has_tag "section") (node_children n))).

(* ================================================================== *)
(** * XMLFileTransformer._custom_transform *)

Definition XML_NS : string := "{http://www.w3.org/XML/1998/namespace}".
Definition DOCBOOK_NS : string := "{http://docbook.org/ns/docbook}".
Definition id_attrib : string := XML_NS ++ "id".

Definition WARNING : string :=
  "WARNING: This file is automatically generated. Do not edit it.".

(** Lines 72-79: the choice among the space-separated ids. *)
Definition choose_id (xml_id : string) : string :=
  let id_list := split_space xml_id in
  if Nat.ltb 1 (List.length id_list)
     && re_match_id_digits (last id_list EmptyString)
  then hd EmptyString id_list
  else last id_list EmptyString.

(** Lines 69-81: the body of the loop, on one item. *)
Definition normalize_item_attrib (a : attrib) : attrib :=
  match assoc_get a id_attrib with
  | Some xml_id => assoc_set a id_attrib (choose_id xml_id)
  | None => a
  end.

(** Lines 66-81: the loop over [tree.iter()].  The body changes only the
    attributes of the item it visits, so the in-place loop is the map of
    the body over the tree. *)
Fixpoint normalize_ids (n : node) : node :=
  match n with
  | Element tag attrs text children tail =>
      Element tag (normalize_item_attrib attrs) text
              (map normalize_ids children) tail
  | Comment text tail => Comment text tail
  | PI target text tail => PI target text tail
  end.

(** An [_ElementTree] holds its root, or nothing (an XSLT result without
    a root element). *)
Definition etree : Type := option node.

Definition _custom_transform (toplevel : string) (tree : etree)
    : exn + etree :=
  match tree with
  | None => inl AttributeError          (* None has no attribute tag *)
  | Some (Element _ attrs text children tail) =>
      let root :=
        Element (DOCBOOK_NS ++ toplevel) attrs text
                (Comment WARNING None :: children) tail in
      inr (Some (normalize_ids root))
  | Some _ => inl AttributeError        (* a root is always an element *)
  end.

(* ================================================================== *)
(** * The world: files, directories and the trace of calls *)

Inductive event : Type :=
| EvRead (path : string)
| EvWrite (path : string) (content : string)
| EvMakedirs (path : string).

Record world : Type := mkWorld {
  files : list (string * string);
  dirs : list string;
  trace : list event          (* oldest first *)
}.

Definition M (A : Type) : Type := world -> (exn + A) * world.

Definition ret {A : Type} (a : A) : M A := fun w => (inr a, w).

Definition raise {A : Type} (e : exn) : M A := fun w => (inl e, w).

Definition bind {A B : Type} (m : M A) (k : A -> M B) : M B :=
  fun w =>
    match m w with
    | (inr a, w') => k a w'
    | (inl e, w') => (inl e, w')
    end.

(** A pure computation that may raise. *)
Definition lift {A : Type} (r : exn + A) : M A := fun w => (r, w).

Notation "x <- m ;; k" := (bind m (fun x => k))
  (at level 61, m at next level, right associativity).
Notation "m ;;; k" := (bind m (fun _ => k))
  (at level 61, right associativity).

(** [for x in l: body(x)]. *)
Fixpoint for_each {A : Type} (body : A -> M unit) (l : list A) : M unit :=
  match l with
  | [] => ret tt
  | x :: r => body x ;;; for_each body r
  end.

Definition log (ev : event) (w : world) : world :=
  mkWorld (files w) (dirs w) (trace w ++ [ev]).

(** A directory is named with or without trailing slashes. *)
Definition norm_dir (p : string) : string :=
  if all_slashes p then p else rstrip_slash p.

Definition isdir_in (w : world) (p : string) : bool :=
  existsb (String.eqb (norm_dir p)) (dirs w).

(** [os.path.isdir(p)]. *)
Definition os_path_isdir (p : string) : M bool :=
  fun w => (inr (isdir_in w p), w).

(** [open(p).read()]. *)
Definition open_read (p : string) : M string :=
  fun w =>
    match assoc_get (files w) p with
    | Some c => (inr c, log (EvRead p) w)
    | None => (inl IOError, w)
    end.

(** [open(p, 'w').write(c)]: the file is created in a directory that
    exists (the empty directory name is the current directory). *)
Definition open_write (p c : string) : M unit :=
  fun w =>
    let parent := os_path_dirname p in
    if String.eqb (os_path_basename p) EmptyString || isdir_in w p then
      (inl IOError, w)
    else if String.eqb parent EmptyString || isdir_in w parent then
      (inr tt, mkWorld (assoc_set (files w) p c) (dirs w)
                       (trace w ++ [EvWrite p c]))
    else (inl IOError, w).

(** The proper prefixes of a path that end before a slash. *)
Fixpoint dir_prefixes (rpre : string) (p : string) : list string :=
  match p with
  | EmptyString => []
  | String c r =>
      (if Ascii.eqb c "/"%char && negb (all_slashes rpre)
       then [str_rev rpre] else [])
      ++ dir_prefixes (String c rpre) r
  end.

(** [os.makedirs(p)]: the leaf must not exist; missing parents are made. *)
Definition os_makedirs (p : string) : M unit :=
  fun w =>
    let d := norm_dir p in
    match assoc_get (files w) d with
    | Some _ => (inl OSError, w)
    | None =>
        if isdir_in w p || String.eqb d EmptyString then (inl OSError, w)
        else
          let missing :=
            filter (fun a => negb (isdir_in w a))
                   (dir_prefixes EmptyString d) in
          (inr tt, mkWorld (files w) (dirs w ++ missing ++ [d])
                           (trace w ++ [EvMakedirs p]))
    end.

(** The names in a directory: those of its files, then those of its
    subdirectories. *)
Definition listdir (w : world) (d : string) : list string :=
  let inside p :=
    let (head, name) := os_path_split p in
    if String.eqb head d && negb (String.eqb name EmptyString)
    then [name] else [] in
  flat_map (fun f => inside (fst f)) (files w) ++ flat_map inside (dirs w).

(** [fnmatch(name, '*.xml')], and no hidden file for a pattern that does
    not start with a dot. *)
Definition fnmatch_xml (name : string) : bool :=
  endswith name ".xml" && negb (startswith name ".").

(** [glob.glob(os.path.join(d, '*.xml'))]. *)
Definition glob_xml (d : string) : M (list string) :=
  fun w =>
    let dirname := os_path_dirname (os_path_join d "*.xml") in
    (inr (map (os_path_join dirname)
              (filter fnmatch_xml (listdir w dirname))), w).

(* ================================================================== *)
(** * The platform: lxml and the installation directory *)

Class Platform : Type := {
  (** [etree.XML(text)]: the root element, or a syntax error. *)
  etree_XML : string -> exn + node;
  (** [etree.XSLT(stylesheet_root)(doc)]: compile, then apply. *)
  etree_XSLT : node -> node -> exn + etree;
  (** [etree.tostring(tree, pretty_print=True, xml_declaration=True,
      encoding="UTF-8")]. *)
  etree_tostring : etree -> string;
  (** [os.path.dirname(__file__)]. *)
  OS_DOC_TOOLS_DIR : string
}.

Section Program.

Context {platform : Platform}.

Definition DN2DBK : string :=
  os_path_join (os_path_join OS_DOC_TOOLS_DIR "resources") "dn2osdbk.xsl".

(* ---------------------------------------------------------------- *)
(** ** class XMLFileTransformer *)

(** The field [basename] is computed by [__init__] and never read; it is
    left out. *)
Record XMLFileTransformer : Type := mkXMLFileTransformer {
  source_file : string;
  toplevel : string;
  xslt_file : string
}.

Definition XMLFileTransformer__init__ (source_file toplevel : string)
    : XMLFileTransformer :=
  mkXMLFileTransformer source_file toplevel DN2DBK.

Definition _xslt_transform (self : XMLFileTransformer) (xml : node)
    : M etree :=
  xslt <- open_read (xslt_file self) ;;
  xslt_root <- lift (etree_XML xslt) ;;
  lift (etree_XSLT xslt_root xml).

Definition XMLFileTransformer_transform (self : XMLFileTransformer)
    : M string :=
  source_xml <- open_read (source_file self) ;;
  source_doc <- lift (etree_XML source_xml) ;;
  result_tree <- _xslt_transform self source_doc ;;
  result_tree <- lift (_custom_transform (toplevel self) result_tree) ;;
  ret (etree_tostring result_tree).

(* ---------------------------------------------------------------- *)
(** ** class BaseFolderTransformer and its two subclasses *)

Inductive folder_class : Type :=
| BaseFolderTransformer
| BookTransformer
| ChapterTransformer.

Definition file_toplevel (cls : folder_class) : string :=
  match cls with
  | BaseFolderTransformer => "section"
  | BookTransformer => "chapter"
  | ChapterTransformer => "section"
  end.

Record folder : Type := mkFolder {
  cls : folder_class;
  source_dir : string;
  output_dir : string;
  index : string;
  includes : list string;
  title : option string
}.

(** Lines 127-132: the loop over the references.  [reference.get]
    answers [None] for a missing attribute, and ['#' in None] raises. *)
Fixpoint parse_references (tag : string) (references : list node)
    (includes : list string) : exn + list string :=
  match references with
  | [] => inr includes
  | reference :: rest =>
      match get reference "refuri" with
      | None => inl TypeError
      | Some refuri =>
          if str_in "#"%char refuri then parse_references tag rest includes
          else parse_references tag rest
                 (includes ++ [tag ++ "_" ++ refuri ++ ".xml"])
      end
  end.

Definition parse_index (self : folder) : M folder :=
  let src := os_path_join (source_dir self) "index.xml" in
  text <- open_read src ;;
  src_xml <- lift (etree_XML text) ;;
  includes' <- lift (parse_references (file_toplevel (cls self))
                       (iter_tag "reference" src_xml) (includes self)) ;;
  match find_section_title src_xml with
  | None => raise AttributeError        (* None has no attribute text *)
  | Some t =>
      ret (mkFolder (cls self) (source_dir self) (output_dir self)
                    (index self) includes' (node_text t))
  end.

Definition BaseFolderTransformer__init__ (cls : folder_class)
    (source_dir output_dir index : string) : M folder :=
  self <- parse_index
            (mkFolder cls source_dir output_dir index [] None) ;;
  isdir <- os_path_isdir output_dir ;;
  (if negb isdir then os_makedirs output_dir else ret tt) ;;;
  ret self.

Definition attr (name value : string) : string :=
  name ++ "=" ++ dq ++ value ++ dq.

Definition template_head : string :=
  "<?xml " ++ attr "version" "1.0" ++ " " ++ attr "encoding" "UTF-8"
  ++ "?>" ++ nl.

Definition template_namespaces : string :=
  " " ++ attr "xmlns" "http://docbook.org/ns/docbook" ++ nl ++
  "  " ++ attr "xmlns:xi" "http://www.w3.org/2001/XInclude" ++ nl ++
  "  " ++ attr "xmlns:xlink" "http://www.w3.org/1999/xlink" ++ nl ++
  "  " ++ attr "version" "5.0" ++ nl ++
  "  " ++ attr "xml:id" "%(xml_id)s" ++ ">" ++ nl ++
  nl ++
  "    <!-- " ++ WARNING ++ " -->" ++ nl ++
  nl.

(** The string literal of lines 167-181. *)
Definition BookTransformer_template : string :=
  template_head ++
  "<!DOCTYPE book [" ++ nl ++
  "]>" ++ nl ++
  "<book" ++ template_namespaces ++
  "    <title>%(title)s</title>" ++ nl ++
  "    %(includes)s" ++ nl ++
  "</book>" ++ nl.

(** The string literal of lines 196-208. *)
Definition ChapterTransformer_template : string :=
  template_head ++
  "<chapter" ++ template_namespaces ++
  "    <title>%(title)</title>" ++ nl ++
  "    %(includes)s" ++ nl ++
  "</chapter>" ++ nl.

Definition xi_include (i : string) : string :=
  "<xi:include " ++ attr "href" i ++ "/>".

(** Both subclasses build the same dict; [self.title.lower()] raises
    when the title is [None]. *)
Definition write_index_with (template : string) (self : folder) : M unit :=
  let output_file := os_path_join (output_dir self) "index.xml" in
  match title self with
  | None => raise AttributeError
  | Some title =>
      let xml_id := str_replace " "%char "-"%char (str_lower title) in
      let includes :=
        str_join (nl ++ "    ") (map xi_include (includes self)) in
      output <- lift (py_format template
                        [("xml_id", xml_id); ("title", title);
                         ("includes", includes)]) ;;
      open_write output_file output
  end.

Definition BaseFolderTransformer_write_index (self : folder) : M unit :=
  raise NotImplementedError.

Definition BookTransformer_write_index (self : folder) : M unit :=
  write_index_with BookTransformer_template self.

Definition ChapterTransformer_write_index (self : folder) : M unit :=
  write_index_with ChapterTransformer_template self.

(** [self.write_index()]: the method of the object's class. *)
Definition write_index (self : folder) : M unit :=
  match cls self with
  | BaseFolderTransformer => BaseFolderTransformer_write_index self
  | BookTransformer => BookTransformer_write_index self
  | ChapterTransformer => ChapterTransformer_write_index self
  end.

(** Lines 147-153: the body of the loop of [transform]. *)
Definition transform_file (self : folder) (src : string) : M unit :=
  if endswith src "/index.xml" then ret tt
  else
    let basename :=
      file_toplevel (cls self) ++ "_" ++ os_path_basename src in
    let output_file := os_path_join (output_dir self) basename in
    let transformer :=
      XMLFileTransformer__init__ src (file_toplevel (cls self)) in
    xml <- XMLFileTransformer_transform transformer ;;
    open_write output_file xml.

Definition BaseFolderTransformer_transform (self : folder) : M unit :=
  files <- glob_xml (source_dir self) ;;
  for_each (transform_file self) files ;;;
  write_index self.

(* ---------------------------------------------------------------- *)
(** ** main *)

Definition TRANSFORMERS : list (string * folder_class) :=
  [("chapter", ChapterTransformer); ("book", BookTransformer)].

(** [args.toplevel] is one of the choices [book] and [chapter]; the exit
    status is not modelled. *)
Definition main (source output toplevel : string) : M unit :=
  isdir <- os_path_isdir source ;;
  if isdir then
    match assoc_get TRANSFORMERS toplevel with
    | None => raise KeyError
    | Some cls =>
        transformer <- BaseFolderTransformer__init__ cls source output
                         "index.xml" ;;
        BaseFolderTransformer_transform transformer
    end
  else
    let transformer := XMLFileTransformer__init__ source toplevel in
    xml <- XMLFileTransformer_transform transformer ;;
    open_write output xml.

End Program.

(* ================================================================== *)
(** * Notions used by the statements *)

(** The whitespace of [str.split()] without an argument. *)
Definition is_space (c : ascii) : bool :=
  let n := nat_of_ascii c in Nat.eqb n 32 || (Nat.leb 9 n && Nat.leb n 13).

(** The tokens of a whitespace-separated list, as the specification words
    the input of id normalization: maximal runs of non-whitespace. *)
Fixpoint whitespace_tokens (s : string) : list string :=
  match s with
  | EmptyString => []
  | String c r =>
      if is_space c then whitespace_tokens r
      else match r with
           | EmptyString => [String c EmptyString]
           | String c' _ =>
               if is_space c' then String c EmptyString :: whitespace_tokens r
               else match whitespace_tokens r with
                    | h :: t => String c h :: t
                    | [] => [String c EmptyString]
                    end
           end
  end.

(** The rule of the specification on a list of tokens: a single token is
    kept; among several, the first when the last is an auto-generated
    id, the last otherwise. *)
Definition select_token (tokens : list string) : string :=
  match tokens with
  | [t] => t
  | _ =>
      if re_match_id_digits (last tokens EmptyString)
      then hd EmptyString tokens
      else last tokens EmptyString
  end.

(** The autogeneration warning, as the text of a comment. *)
Definition is_warning (n : node) : bool :=
  match n with
  | Comment text _ =>
      String.eqb text
        "WARNING: This file is automatically generated. Do not edit it."
  | _ => false
  end.

(** The number of autogeneration warnings in a tree. *)
Definition warning_count (n : node) : nat :=
  List.length (filter is_warning (iter n)).


(** The index of a book with the three values in place. *)
Definition book_index (xml_id title includes : string) : string :=
  template_head ++
  "<!DOCTYPE book [" ++ nl ++
  "]>" ++ nl ++
  "<book" ++
  " " ++ attr "xmlns" "http://docbook.org/ns/docbook" ++ nl ++
  "  " ++ attr "xmlns:xi" "http://www.w3.org/2001/XInclude" ++ nl ++
  "  " ++ attr "xmlns:xlink" "http://www.w3.org/1999/xlink" ++ nl ++
  "  " ++ attr "version" "5.0" ++ nl ++
  "  xml:id=" ++ dq ++ xml_id ++ dq ++ ">" ++ nl ++
  nl ++
  "    <!-- " ++ WARNING ++ " -->" ++ nl ++
  nl ++
  "    <title>" ++ title ++ "</title>" ++ nl ++
  "    " ++ includes ++ nl ++
  "</book>" ++ nl.

(** The paths written to, in the order of the calls. *)
Definition written (tr : list event) : list string :=
  flat_map (fun ev => match ev with
                      | EvWrite p _ => [p]
                      | _ => []
                      end) tr.

(** The identifier and the XInclude lines that [write_index] builds. *)
Definition xml_id_of (title : string) : string :=
  str_replace " "%char "-"%char (str_lower title).

Definition includes_text (includes : list string) : string :=
  str_join (nl ++ "    ") (map xi_include includes).

(** The index entries of a list of [refuri] values, for a file tag. *)
Definition entries_of (tag : string) (uris : list string) : list string :=
  map (fun u => tag ++ "_" ++ u ++ ".xml")
      (filter (fun u => negb (str_in "#"%char u)) uris).

(** The name under which [transform] writes the conversion of [src]. *)
Definition output_file (self : folder) (src : string) : string :=
  os_path_join (output_dir self)
    (file_toplevel (cls self) ++ "_" ++ os_path_basename src).

(** From [w] to [w'] the trace only grew, and not by a write to [p]. *)
Definition no_new_write (p : string) (w w' : world) : Prop :=
  exists evs, trace w' = (trace w ++ evs)%list /\ ~ In p (written evs).

(** A computation that never writes to [p]. *)
Definition quiet {A : Type} (p : string) (m : M A) : Prop :=
  forall w r w', m w = (r, w') -> no_new_write p w w'.


(** The index of the release notes written out character by character:
    the quotation mark and the line feed are spelled by their codes. *)
Definition quote_mark : string := String "034"%char EmptyString.
Definition line_feed : string := String "010"%char EmptyString.

Definition release_notes_text : string :=
  "<?xml version=" ++ quote_mark ++ "1.0" ++ quote_mark
  ++ " encoding=" ++ quote_mark ++ "UTF-8" ++ quote_mark ++ "?>"
  ++ line_feed ++
  "<!DOCTYPE book [" ++ line_feed ++
  "]>" ++ line_feed ++
  "<book xmlns=" ++ quote_mark ++ "http://docbook.org/ns/docbook"
  ++ quote_mark ++ line_feed ++
  "  xmlns:xi=" ++ quote_mark ++ "http://www.w3.org/2001/XInclude"
  ++ quote_mark ++ line_feed ++
  "  xmlns:xlink=" ++ quote_mark ++ "http://www.w3.org/1999/xlink"
  ++ quote_mark ++ line_feed ++
  "  version=" ++ quote_mark ++ "5.0" ++ quote_mark ++ line_feed ++
  "  xml:id=" ++ quote_mark ++ "release-notes" ++ quote_mark ++ ">"
  ++ line_feed ++
  line_feed ++
  "    <!-- WARNING: This file is automatically generated. "
  ++ "Do not edit it. -->" ++ line_feed ++
  line_feed ++
  "    <title>Release Notes</title>" ++ line_feed ++
  "    <xi:include href=" ++ quote_mark ++ "chapter_foo.xml" ++ quote_mark
  ++ "/>" ++ line_feed ++
  "    <xi:include href=" ++ quote_mark ++ "chapter_bar.xml" ++ quote_mark
  ++ "/>" ++ line_feed ++
  "</book>" ++ line_feed.

(** The part of [t] before the first occurrence of [s]. *)
Fixpoint str_before (t s : string) : string :=
  if String.prefix s t then EmptyString
  else match t with
       | EmptyString => EmptyString
       | String c r => String c (str_before r s)
       end.

(** [s] occurs in [t]. *)
Fixpoint contains (t s : string) : bool :=
  String.prefix s t
  || match t with
     | EmptyString => false
     | String _ r => contains r s
     end.

(* ================================================================== *)
(** * A small platform and a source directory for the examples *)

Module Sample.

Definition tab : string := String "009"%char EmptyString.

(** A parser that knows six documents. *)
Definition index_text : string :=
  "<document><section><title>Release Notes</title>" ++
  "<reference " ++ attr "refuri" "foo" ++ "/>" ++
  "<reference " ++ attr "refuri" "bar" ++ "/></section></document>".

Definition index_doc : node :=
  Element "document" [] None
    [Element "section" [("ids", "release-notes")] None
       [Element "title" [] (Some "Release Notes") [] None;
        Element "reference" [("refuri", "foo")] None [] None;
        Element "reference" [("refuri", "bar")] None [] None] None] None.

Definition foo_text : string :=
  "<document " ++ attr "ids" "intro id1" ++ "><!--x--><p/></document>".

Definition foo_doc : node :=
  Element "document" [("ids", "intro id1")] None
    [Comment "x" None; Element "p" [] None [] None] None.

Definition bar_text : string := "<document/>".
Definition bar_doc : node := Element "document" [] None [] None.

Definition stylesheet_text : string := "<xsl:stylesheet/>".
Definition stylesheet_doc : node :=
  Element "{http://www.w3.org/1999/XSL/Transform}stylesheet" [] None [] None.

(** An index without a title, and one with a reference without
    [refuri]. *)
Definition untitled_text : string :=
  "<document><section><reference " ++ attr "refuri" "foo"
  ++ "/></section></document>".

Definition untitled_doc : node :=
  Element "document" [] None
    [Element "section" [] None
       [Element "reference" [("refuri", "foo")] None [] None] None] None.

Definition noref_text : string :=
  "<document><section><title>Notes</title><reference " ++
  attr "refuri" "foo" ++ "/><reference/></section></document>".

Definition noref_doc : node :=
  Element "document" [] None
    [Element "section" [] None
       [Element "title" [] (Some "Notes") [] None;
        Element "reference" [("refuri", "foo")] None [] None;
        Element "reference" [] None [] None] None] None.

Definition documents : list (string * node) :=
  [(index_text, index_doc); (foo_text, foo_doc); (bar_text, bar_doc);
   (stylesheet_text, stylesheet_doc); (untitled_text, untitled_doc);
   (noref_text, noref_doc)].

(** A stylesheet that turns [document] into [section] and [ids] into
    [xml:id] at the root. *)
Definition apply_stylesheet (doc : node) : exn + etree :=
  match doc with
  | Element _ attrs text children tail =>
      inr (Some (Element (DOCBOOK_NS ++ "section")
                   (map (fun kv => if String.eqb (fst kv) "ids"
                                   then (id_attrib, snd kv) else kv) attrs)
                   text children tail))
  | _ => inl XSLTApplyError
  end.

(** A serialiser that prints the root tag, its id and the number of
    its children. *)
Definition tostring (t : etree) : string :=
  match t with
  | Some (Element tag attrs _ children _) =>
      "<" ++ tag
      ++ match assoc_get attrs id_attrib with
         | Some v => " " ++ attr "xml:id" v
         | None => EmptyString
         end
      ++ ">" ++ spaces (List.length children)
  | _ => EmptyString
  end.

Definition platform : Platform := {|
  etree_XML := fun text =>
    match assoc_get documents text with
    | Some n => inr n
    | None => inl XMLSyntaxError
    end;
  etree_XSLT := fun _ doc => apply_stylesheet doc;
  etree_tostring := tostring;
  OS_DOC_TOOLS_DIR := "/opt/os_doc_tools"
|}.

Definition stylesheet_path : string :=
  "/opt/os_doc_tools/resources/dn2osdbk.xsl".

Definition source_files : list (string * string) :=
  [("src/index.xml", index_text); ("src/foo.xml", foo_text);
   ("src/bar.xml", bar_text)].

Definition initial : world :=
  mkWorld (source_files ++ [(stylesheet_path, stylesheet_text)])
          ["src"] [].

(** The same directory with another index. *)
Definition with_index (text : string) : world :=
  mkWorld [("src/index.xml", text); ("src/foo.xml", foo_text);
           (stylesheet_path, stylesheet_text)] ["src"] [].

(** A directory with a file that is not XML, between two that are; the
    output directory exists. *)
Definition broken : world :=
  mkWorld [("src/index.xml", index_text); ("src/foo.xml", foo_text);
           ("src/broken.xml", "<document"); ("src/bar.xml", bar_text);
           (stylesheet_path, stylesheet_text)] ["src"; "out"] [].

Definition book : folder :=
  mkFolder BookTransformer "src" "out" "index.xml"
           ["chapter_foo.xml"; "chapter_bar.xml"] (Some "Release Notes").

End Sample.

(* ================================================================== *)
(** * More sample worlds *)

Module More.

(** The sample directory, with the output directory in place. *)
Definition ready : world :=
  mkWorld (Sample.source_files
           ++ [(Sample.stylesheet_path, Sample.stylesheet_text)])
          ["src"; "out"] [].

(** A platform whose stylesheet yields a result without a root. *)
Definition rootless : Platform := {|
  etree_XML := @etree_XML Sample.platform;
  etree_XSLT := fun _ _ => inr None;
  etree_tostring := Sample.tostring;
  OS_DOC_TOOLS_DIR := "/opt/os_doc_tools"
|}.

(** A book whose title element had no text. *)
Definition untitled_book : folder :=
  mkFolder BookTransformer "src" "out" "index.xml"
           ["chapter_foo.xml"; "chapter_bar.xml"] None.

(** An instance of the base class itself. *)
Definition base : folder :=
  mkFolder BaseFolderTransformer "src" "out" "index.xml"
           ["section_foo.xml"; "section_bar.xml"] (Some "Release Notes").

End More.

(* ================================================================== *)
(** * os.path.splitext and the field [basename] *)

Fixpoint str_drop (n : nat) (s : string) : string :=
  match n, s with
  | S m, String _ r => str_drop m r
  | _, _ => s
  end.

(** [s.rfind(c)] for a one-character [c]; [None] stands for [-1]. *)
Fixpoint rfind (c : ascii) (s : string) : option nat :=
  match s with
  | EmptyString => None
  | String a r =>
      match rfind c r with
      | Some i => Some (S i)
      | None => if Ascii.eqb a c then Some 0 else None
      end
  end.

(** Some character of [s] is not [c]. *)
Fixpoint has_other (c : ascii) (s : string) : bool :=
  match s with
  | EmptyString => false
  | String a r => negb (Ascii.eqb a c) || has_other c r
  end.

(** [posixpath.splitext(p)]: cut at the last dot, when it comes after
    the last slash and after a character of the name that is not a
    dot. *)
Definition os_path_splitext (p : string) : string * string :=
  let filenameIndex :=
    match rfind "/"%char p with
    | Some sepIndex => S sepIndex
    | None => 0
    end in
  match rfind "."%char p with
  | Some dotIndex =>
      if Nat.leb filenameIndex dotIndex
         && has_other "."%char
              (str_take (dotIndex - filenameIndex)
                        (str_drop filenameIndex p))
      then (str_take dotIndex p, str_drop dotIndex p)
      else (p, EmptyString)
  | None => (p, EmptyString)
  end.

(** Lines 45-46: the field [basename] of an [XMLFileTransformer]. *)
Definition XMLFileTransformer_basename (source_file : string) : string :=
  let basename := os_path_basename source_file in
  fst (os_path_splitext basename).

(* ****************************************************************** *)
(** * Verification *)

(* ================================================================== *)
(** * Strings and association lists *)

Lemma append_nil_r (s : string) : s ++ EmptyString = s.
Proof. induction s; simpl; congruence. Qed.

Lemma append_assoc (a b c : string) : (a ++ b) ++ c = a ++ b ++ c.
Proof. induction a; simpl; congruence. Qed.

Lemma append_inj_l (a b c : string) : a ++ b = a ++ c -> b = c.
Proof. induction a; simpl; intros H; [assumption | injection H; auto]. Qed.

Lemma split_space_not_nil (s : string) : split_space s <> [].
Proof.
  destruct s as [|c r]; simpl; [discriminate|].
  destruct (Ascii.eqb c " "); [discriminate|].
  destruct (split_space r); discriminate.
Qed.

(** No token of [s.split(' ')] holds a space. *)
Lemma split_space_tokens (s : string) :
  Forall (fun t => str_in " "%char t = false) (split_space s).
Proof.
  induction s as [|c r IH]; simpl.
  - constructor; [reflexivity | constructor].
  - destruct (Ascii.eqb c " ") eqn:E.
    + constructor; [reflexivity | exact IH].
    + destruct (split_space r) as [|h t].
      * constructor; [simpl; rewrite E; reflexivity | constructor].
      * inversion IH; subst.
        constructor; [simpl; rewrite E; assumption | assumption].
Qed.

Lemma split_space_spaceless (s : string) :
  str_in " "%char s = false -> split_space s = [s].
Proof.
  induction s as [|c r IH]; simpl; intros H; [reflexivity|].
  apply orb_false_iff in H. destruct H as [Hc Hr].
  rewrite Hc, (IH Hr). reflexivity.
Qed.

Lemma choose_id_in (v : string) : In (choose_id v) (split_space v).
Proof.
  unfold choose_id. pose proof (split_space_not_nil v) as Hn.
  destruct (split_space v) as [|h t]; [contradiction|].
  destruct (_ && _).
  - left; reflexivity.
  - destruct (exists_last (l := h :: t)) as (l' & a & E); [discriminate|].
    rewrite E, last_last. apply in_or_app. right. left. reflexivity.
Qed.

Lemma choose_id_spaceless (v : string) :
  str_in " "%char (choose_id v) = false.
Proof.
  pose proof (split_space_tokens v) as H.
  rewrite Forall_forall in H. apply H, choose_id_in.
Qed.

Lemma choose_id_fixed (v : string) :
  str_in " "%char v = false -> choose_id v = v.
Proof.
  intros H. unfold choose_id. rewrite (@split_space_spaceless _ H).
  reflexivity.
Qed.

(** The choice of the code is the rule of the specification on the
    tokens of [split(' ')]. *)
Lemma choose_id_select (v : string) :
  choose_id v = select_token (split_space v).
Proof.
  unfold choose_id, select_token.
  destruct (split_space v) as [|a [|b l]]; reflexivity.
Qed.

Lemma assoc_get_set_same {V : Type} (d : list (string * V)) k v :
  assoc_get (assoc_set d k v) k = Some v.
Proof.
  induction d as [|[k' v'] r IH]; simpl.
  - rewrite String.eqb_refl. reflexivity.
  - destruct (String.eqb k' k) eqn:E; simpl.
    + rewrite String.eqb_refl. reflexivity.
    + rewrite E. exact IH.
Qed.

Lemma assoc_get_set_other {V : Type} (d : list (string * V)) k k' v :
  k' <> k -> assoc_get (assoc_set d k v) k' = assoc_get d k'.
Proof.
  intros Hne. induction d as [|[k0 v0] r IH]; simpl.
  - destruct (String.eqb k k') eqn:E; [|reflexivity].
    apply String.eqb_eq in E. congruence.
  - destruct (String.eqb k0 k) eqn:E; simpl.
    + apply String.eqb_eq in E. subst k0.
      destruct (String.eqb k k') eqn:E'; [|reflexivity].
      apply String.eqb_eq in E'. congruence.
    + rewrite IH. reflexivity.
Qed.

Lemma assoc_set_set {V : Type} (d : list (string * V)) k v v' :
  assoc_set (assoc_set d k v) k v' = assoc_set d k v'.
Proof.
  induction d as [|[k0 v0] r IH]; simpl.
  - rewrite String.eqb_refl. reflexivity.
  - destruct (String.eqb k0 k) eqn:E; simpl.
    + rewrite String.eqb_refl. reflexivity.
    + rewrite E, IH. reflexivity.
Qed.


(* ================================================================== *)
(** * Traces *)

Lemma no_new_write_refl p w : no_new_write p w w.
Proof. exists []. rewrite app_nil_r. split; [reflexivity | intros []]. Qed.

Lemma written_app (a b : list event) :
  written (a ++ b) = (written a ++ written b)%list.
Proof. unfold written. apply flat_map_app. Qed.

Lemma no_new_write_trans p w1 w2 w3 :
  no_new_write p w1 w2 -> no_new_write p w2 w3 -> no_new_write p w1 w3.
Proof.
  intros (e1 & H1 & N1) (e2 & H2 & N2). exists (e1 ++ e2)%list. split.
  - rewrite H2, H1, app_assoc. reflexivity.
  - rewrite written_app. intros H. apply in_app_or in H. tauto.
Qed.

Lemma quiet_ret {A : Type} p (a : A) : quiet p (ret a).
Proof. intros w r w' H. injection H as _ <-. apply no_new_write_refl. Qed.

Lemma quiet_raise {A : Type} p (e : exn) : quiet p (@raise A e).
Proof. intros w r w' H. injection H as _ <-. apply no_new_write_refl. Qed.

Lemma quiet_lift {A : Type} p (x : exn + A) : quiet p (lift x).
Proof. intros w r w' H. injection H as _ <-. apply no_new_write_refl. Qed.

Lemma quiet_bind {A B : Type} p (m : M A) (k : A -> M B) :
  quiet p m -> (forall a, quiet p (k a)) -> quiet p (bind m k).
Proof.
  intros Hm Hk w r w' H. unfold bind in H.
  destruct (m w) as [[e|a] w1] eqn:E.
  - injection H as _ <-. eapply Hm; exact E.
  - eapply no_new_write_trans; [eapply Hm; exact E | eapply Hk; exact H].
Qed.

Lemma quiet_open_read p q : quiet p (open_read q).
Proof.
  intros w r w' H. unfold open_read in H.
  destruct (assoc_get (files w) q).
  - injection H as _ <-. exists [EvRead q]. split; [reflexivity|].
    intros [].
  - injection H as _ <-. apply no_new_write_refl.
Qed.

Lemma quiet_open_write p q c : q <> p -> quiet p (open_write q c).
Proof.
  intros Hne w r w' H. unfold open_write in H.
  destruct (_ || _).
  - injection H as _ <-. apply no_new_write_refl.
  - destruct (_ || _).
    + injection H as _ <-. exists [EvWrite q c]. split; [reflexivity|].
      simpl. intros [E|[]]. contradiction.
    + injection H as _ <-. apply no_new_write_refl.
Qed.

Lemma quiet_for_each {A : Type} p (body : A -> M unit) (l : list A) :
  (forall x, quiet p (body x)) -> quiet p (for_each body l).
Proof.
  intros Hb. induction l as [|x r IH]; simpl.
  - apply quiet_ret.
  - apply quiet_bind; [apply Hb | intros _; exact IH].
Qed.

Lemma for_each_app {A : Type} (body : A -> M unit) (l1 l2 : list A) w :
  for_each body (l1 ++ l2) w
  = match for_each body l1 w with
    | (inr _, w1) => for_each body l2 w1
    | (inl e, w1) => (inl e, w1)
    end.
Proof.
  revert w. induction l1 as [|x r IH]; intros w; simpl; [reflexivity|].
  unfold bind. destruct (body x w) as [[e|[]] w1]; [reflexivity|].
  apply IH.
Qed.

(** The output of a source file is never the index of the folder. *)
Lemma output_file_not_index (c : folder_class) (output base : string) :
  os_path_join output (file_toplevel c ++ "_" ++ base)
  <> os_path_join output "index.xml".
Proof.
  unfold os_path_join.
  replace (startswith (file_toplevel c ++ "_" ++ base) "/") with false
    by (destruct c; reflexivity).
  replace (startswith "index.xml" "/") with false by reflexivity.
  destruct (_ || _); intros H.
  - apply append_inj_l in H. destruct c; discriminate.
  - apply append_inj_l in H. destruct c; discriminate.
Qed.

(* ================================================================== *)
(** * Identifier normalization *)

Lemma normalize_item_attrib_idem (a : attrib) :
  normalize_item_attrib (normalize_item_attrib a) = normalize_item_attrib a.
Proof.
  unfold normalize_item_attrib.
  destruct (assoc_get a id_attrib) as [v|] eqn:E.
  - rewrite assoc_get_set_same, assoc_set_set.
    rewrite (@choose_id_fixed _ (choose_id_spaceless v)). reflexivity.
  - rewrite E. reflexivity.
Qed.

Lemma iter_normalize_ids (n : node) :
  iter (normalize_ids n) = map normalize_ids (iter n).
Proof.
  induction n as [tag attrs text children tail IH| |]
    using node_ind; try reflexivity.
  simpl. f_equal.
  induction IH as [|c r Hc _ IHr]; simpl; [reflexivity|].
  rewrite map_app, Hc, IHr. reflexivity.
Qed.



(** C8: identifier normalization is idempotent: a second pass over a
    tree changes nothing that the first pass produced, so the attribute
    values after two passes are those after one. *)
Theorem normalize_ids_idempotent (n : node) :
  normalize_ids (normalize_ids n) = normalize_ids n.
Proof.
  induction n as [tag attrs text children tail IH| |]
    using node_ind; try reflexivity.
  simpl. rewrite normalize_item_attrib_idem. f_equal.
  rewrite map_map.
  induction IH as [|c r Hc _ IHr]; simpl; [reflexivity|].
  rewrite Hc, IHr. reflexivity.
Qed.

(** C2 (as amended): every item of the tree, the root included, keeps
    its place, tag and text; an item without [xml:id] keeps its
    attributes; an item with [xml:id] gets the token that the rule
    selects among those of [split(' ')], and keeps its other
    attributes. *)
Theorem normalize_ids_rule (root : node) (i : nat) (item : node) :
  nth_error (iter root) i = Some item ->
  exists item',
    nth_error (iter (normalize_ids root)) i = Some item' /\
    node_tag item' = node_tag item /\
    node_text item' = node_text item /\
    match get item id_attrib with
    | None => node_attrib item' = node_attrib item
    | Some v =>
        get item' id_attrib = Some (select_token (split_space v)) /\
        forall k, k <> id_attrib -> get item' k = get item k
    end.
Proof.
  intros H. exists (normalize_ids item).
  rewrite iter_normalize_ids, nth_error_map, H. split; [reflexivity|].
  destruct item as [tag attrs text children tail| |]; simpl;
    repeat split; try reflexivity.
  unfold get, normalize_item_attrib. simpl.
  destruct (assoc_get attrs id_attrib) as [v|] eqn:E; [|reflexivity].
  split.
  - rewrite assoc_get_set_same, choose_id_select. reflexivity.
  - intros k Hk. apply assoc_get_set_other. exact Hk.
Qed.

Lemma normalize_ids_rule_witness :
  exists item',
    nth_error
      (iter (normalize_ids
               (Element "section" [(id_attrib, "intro id123")] None
                  [Element "para" [(id_attrib, "foo bar")] None [] None]
                  None))) 1 = Some item' /\
    get item' id_attrib = Some "bar".
Proof.
  destruct (@normalize_ids_rule
              (Element "section" [(id_attrib, "intro id123")] None
                 [Element "para" [(id_attrib, "foo bar")] None [] None]
                 None) 1
              (Element "para" [(id_attrib, "foo bar")] None [] None)
              eq_refl) as (item' & Hn & _ & _ & Hg).
  exists item'. split; [exact Hn|]. exact (proj1 Hg).
Defined.

(** C2 (as stated) fails: tokens separated by a tab are not split, and
    a trailing space makes the empty string the last token. *)
Lemma whitespace_ids_counterexample :
  let by_tab := "intro" ++ Sample.tab ++ "id123" in
  let trailing := "intro id123 " in
  let item v := Element "section" [(id_attrib, v)] None [] None in
  (whitespace_tokens by_tab = ["intro"; "id123"] /\
   select_token (whitespace_tokens by_tab) = "intro" /\
   get (normalize_ids (item by_tab)) id_attrib = Some by_tab /\
   get (normalize_ids (item by_tab)) id_attrib
     <> Some (select_token (whitespace_tokens by_tab))) /\
  (whitespace_tokens trailing = ["intro"; "id123"] /\
   select_token (whitespace_tokens trailing) = "intro" /\
   get (normalize_ids (item trailing)) id_attrib = Some EmptyString /\
   get (normalize_ids (item trailing)) id_attrib
     <> Some (select_token (whitespace_tokens trailing))).
Proof.
  cbv zeta. repeat split; try reflexivity; discriminate.
Qed.

(* ================================================================== *)
(** * Single-file conversion *)

Section SingleFile.

Context {platform : Platform}.

Lemma custom_transform_element toplevel tag attrs text children tail :
  _custom_transform toplevel (Some (Element tag attrs text children tail))
  = inr (Some (Element (DOCBOOK_NS ++ toplevel)
                 (normalize_item_attrib attrs) text
                 (Comment WARNING None :: map normalize_ids children)
                 tail)).
Proof. reflexivity. Qed.

Lemma warning_count_element tag attrs text children tail :
  warning_count (Element tag attrs text children tail)
  = List.length (filter is_warning (flat_map iter children)).
Proof. reflexivity. Qed.


End SingleFile.


(* ================================================================== *)
(** * Index parsing *)

(** The loop over the references raises exactly when one of them lacks
    [refuri]; otherwise it appends one entry per reference without [#]. *)
Lemma parse_references_missing tag references includes :
  (exists r, In r references /\ get r "refuri" = None) ->
  parse_references tag references includes = inl TypeError.
Proof.
  revert includes.
  induction references as [|r rest IH]; intros includes (x & Hin & Hx).
  - destruct Hin.
  - simpl. destruct (get r "refuri") as [u|] eqn:E; [|reflexivity].
    destruct Hin as [->|Hin]; [congruence|].
    destruct (str_in "#" u); apply IH; exists x; split; assumption.
Qed.

Lemma parse_references_raises tag references includes e :
  parse_references tag references includes = inl e -> e = TypeError.
Proof.
  revert includes.
  induction references as [|r rest IH]; intros includes H;
    [discriminate|].
  simpl in H. destruct (get r "refuri") as [u|]; [|congruence].
  destruct (str_in "#" u); eapply IH; exact H.
Qed.

Lemma parse_references_ok tag references includes includes' :
  parse_references tag references includes = inr includes' ->
  Forall (fun r => get r "refuri" <> None) references.
Proof.
  revert includes.
  induction references as [|r rest IH]; intros includes H.
  - constructor.
  - simpl in H. destruct (get r "refuri") as [u|] eqn:E; [|discriminate].
    constructor; [rewrite E; discriminate|].
    destruct (str_in "#" u); eapply IH; exact H.
Qed.

Lemma parse_references_all tag references includes :
  Forall (fun r => get r "refuri" <> None) references ->
  parse_references tag references includes
  = inr (includes
         ++ entries_of tag
              (flat_map (fun r => match get r "refuri" with
                                  | Some u => [u]
                                  | None => []
                                  end) references))%list.
Proof.
  intros H. revert includes.
  induction H as [|r rest Hr _ IH]; intros includes; simpl.
  - rewrite app_nil_r. reflexivity.
  - destruct (get r "refuri") as [u|]; [|congruence].
    unfold entries_of. simpl.
    destruct (str_in "#" u); simpl; rewrite IH; [reflexivity|].
    rewrite <- app_assoc. reflexivity.
Qed.

Section Index.

Context {platform : Platform}.

Lemma parse_index_read (self : folder) (w : world) text src_xml :
  assoc_get (files w) (os_path_join (source_dir self) "index.xml")
    = Some text ->
  etree_XML text = inr src_xml ->
  parse_index self w
  = match parse_references (file_toplevel (cls self))
            (iter_tag "reference" src_xml) (includes self) with
    | inl e =>
        (inl e, log (EvRead (os_path_join (source_dir self) "index.xml")) w)
    | inr includes' =>
        match find_section_title src_xml with
        | None =>
            (inl AttributeError,
             log (EvRead (os_path_join (source_dir self) "index.xml")) w)
        | Some t =>
            (inr (mkFolder (cls self) (source_dir self) (output_dir self)
                    (index self) includes' (node_text t)),
             log (EvRead (os_path_join (source_dir self) "index.xml")) w)
        end
    end.
Proof.
  intros Hf Hx. unfold parse_index, bind, open_read, lift.
  rewrite Hf, Hx.
  destruct (parse_references _ _ _); [reflexivity|].
  destruct (find_section_title src_xml); reflexivity.
Qed.

(** C10: an index with a reference that lacks [refuri] makes
    [parse_index] raise [TypeError]; hence an index that is parsed has
    [refuri] on every reference. *)
Theorem parse_index_requires_refuri (self : folder) (w : world)
    text src_xml :
  assoc_get (files w) (os_path_join (source_dir self) "index.xml")
    = Some text ->
  etree_XML text = inr src_xml ->
  ((exists r, In r (iter_tag "reference" src_xml)
              /\ get r "refuri" = None) ->
   fst (parse_index self w) = inl TypeError) /\
  (forall self', fst (parse_index self w) = inr self' ->
     Forall (fun r => get r "refuri" <> None)
            (iter_tag "reference" src_xml)).
Proof.
  intros Hf Hx. rewrite (@parse_index_read self w text src_xml Hf Hx). split.
  - intros Hbad.
    rewrite parse_references_missing by exact Hbad. reflexivity.
  - intros self' H.
    destruct (parse_references _ _ _) as [e|inc] eqn:E; [discriminate|].
    eapply parse_references_ok. exact E.
Qed.

(** C9: without a [section/title] in the index, [parse_index] raises
    and so does the constructor: the world it leaves differs from the
    initial one by the read of the index only (no directory made, no
    file written), and [main] stops there, before any conversion. *)
Theorem init_fails_without_title (c : folder_class)
    (source output : string) (w : world) text src_xml :
  assoc_get (files w) (os_path_join source "index.xml") = Some text ->
  etree_XML text = inr src_xml ->
  find_section_title src_xml = None ->
  let w' := log (EvRead (os_path_join source "index.xml")) w in
  exists e,
    (e = AttributeError \/ e = TypeError) /\
    (forall idx,
       parse_index (mkFolder c source output idx [] None) w = (inl e, w') /\
       BaseFolderTransformer__init__ c source output idx w = (inl e, w')) /\
    (forall toplevel,
       isdir_in w source = true ->
       assoc_get TRANSFORMERS toplevel = Some c ->
       main source output toplevel w = (inl e, w')) /\
    files w' = files w /\ dirs w' = dirs w /\
    written (trace w') = written (trace w).
Proof.
  intros Hf Hx Ht w'.
  assert (Hp : forall idx,
    parse_index (mkFolder c source output idx [] None) w
    = match parse_references (file_toplevel c)
              (iter_tag "reference" src_xml) [] with
      | inl e => (inl e, w')
      | inr _ => (inl AttributeError, w')
      end).
  { intros idx.
    rewrite (@parse_index_read (mkFolder c source output idx [] None)
               w text src_xml Hf Hx).
    cbn [cls source_dir output_dir index includes]. rewrite Ht.
    reflexivity. }
  assert (Hinit : forall e,
    (forall idx, parse_index (mkFolder c source output idx [] None) w
                 = (inl e, w')) ->
    (forall idx,
       parse_index (mkFolder c source output idx [] None) w = (inl e, w') /\
       BaseFolderTransformer__init__ c source output idx w = (inl e, w')) /\
    (forall toplevel,
       isdir_in w source = true ->
       assoc_get TRANSFORMERS toplevel = Some c ->
       main source output toplevel w = (inl e, w')) /\
    files w' = files w /\ dirs w' = dirs w /\
    written (trace w') = written (trace w)).
  { intros e He. split; [|split].
    - intros idx. split; [apply He|].
      unfold BaseFolderTransformer__init__, bind.
      rewrite He. reflexivity.
    - intros toplevel Hd Hc. unfold main, bind, os_path_isdir.
      rewrite Hd, Hc. unfold BaseFolderTransformer__init__, bind.
      rewrite He. reflexivity.
    - repeat split. unfold w', log. cbn [trace].
      rewrite written_app, app_nil_r. reflexivity. }
  destruct (parse_references (file_toplevel c)
              (iter_tag "reference" src_xml) []) as [e|inc] eqn:E.
  - exists e. split; [|apply Hinit; exact Hp].
    right. eapply parse_references_raises. exact E.
  - exists AttributeError. split; [left; reflexivity|].
    apply Hinit; exact Hp.
Qed.

End Index.

Lemma parse_index_requires_refuri_witness :
  fst (@parse_index Sample.platform
         (mkFolder BookTransformer "src" "out" "index.xml" [] None)
         (Sample.with_index Sample.noref_text)) = inl TypeError.
Proof.
  apply (proj1 (@parse_index_requires_refuri Sample.platform
                  (mkFolder BookTransformer "src" "out" "index.xml" [] None)
                  (Sample.with_index Sample.noref_text)
                  Sample.noref_text Sample.noref_doc eq_refl eq_refl)).
  exists (Element "reference" [] None [] None).
  split; [right; left; reflexivity | reflexivity].
Defined.

Lemma init_fails_without_title_witness :
  exists e,
    @BaseFolderTransformer__init__ Sample.platform ChapterTransformer
      "src" "out" "index.xml" (Sample.with_index Sample.untitled_text)
    = (inl e,
       log (EvRead "src/index.xml")
           (Sample.with_index Sample.untitled_text)).
Proof.
  destruct (@init_fails_without_title Sample.platform ChapterTransformer
              "src" "out" (Sample.with_index Sample.untitled_text)
              Sample.untitled_text Sample.untitled_doc
              eq_refl eq_refl eq_refl) as (e & _ & H & _).
  exists e. exact (proj2 (H "index.xml")).
Defined.

(* ================================================================== *)
(** * Writing the index *)

Lemma book_template_format (x t i : string) :
  py_format BookTransformer_template
    [("xml_id", x); ("title", t); ("includes", i)]
  = inr (book_index x t i).
Proof. vm_compute. reflexivity. Qed.

Lemma chapter_template_raises (x t i : string) :
  py_format ChapterTransformer_template
    [("xml_id", x); ("title", t); ("includes", i)]
  = inl ValueError.
Proof. vm_compute. reflexivity. Qed.

Lemma book_write_index (self : folder) (t : string) (w : world) :
  title self = Some t ->
  BookTransformer_write_index self w
  = open_write (os_path_join (output_dir self) "index.xml")
      (book_index (xml_id_of t) t (includes_text (includes self))) w.
Proof.
  intros Ht. unfold BookTransformer_write_index, write_index_with.
  rewrite Ht. unfold bind, lift. rewrite book_template_format.
  reflexivity.
Qed.

Lemma chapter_write_index (self : folder) (w : world) :
  exists e,
    ChapterTransformer_write_index self w = (inl e, w) /\
    (e = ValueError \/ e = AttributeError) /\
    (title self <> None -> e = ValueError).
Proof.
  unfold ChapterTransformer_write_index, write_index_with.
  destruct (title self) as [t|].
  - exists ValueError. unfold bind, lift.
    rewrite chapter_template_raises. repeat split; auto.
  - exists AttributeError. repeat split; auto. congruence.
Qed.

(** C1 (the code): with a title, the chapter variant's [write_index]
    raises [ValueError] on its template and writes nothing, where the
    book variant formats its template and writes the index. *)
Theorem chapter_write_index_raises
    (source output idx : string) (incl : list string) (t : string)
    (w : world) :
  ChapterTransformer_write_index
    (mkFolder ChapterTransformer source output idx incl (Some t)) w
  = (inl ValueError, w) /\
  BookTransformer_write_index
    (mkFolder BookTransformer source output idx incl (Some t)) w
  = open_write (os_path_join output "index.xml")
      (book_index (xml_id_of t) t (includes_text incl)) w.
Proof.
  split.
  - unfold ChapterTransformer_write_index, write_index_with, bind, lift.
    cbn [title includes output_dir].
    rewrite chapter_template_raises. reflexivity.
  - rewrite (@book_write_index _ t) by reflexivity. reflexivity.
Qed.

Section IndexEntries.

Context {platform : Platform}.


End IndexEntries.


(* ================================================================== *)
(** * The folder operation *)

Section Folder.

Context {platform : Platform}.

Lemma quiet_XMLFileTransformer_transform p (self : XMLFileTransformer) :
  quiet p (XMLFileTransformer_transform self).
Proof.
  unfold XMLFileTransformer_transform, _xslt_transform.
  repeat (apply quiet_bind; [|intros ?]);
    first [apply quiet_open_read | apply quiet_lift | apply quiet_ret].
Qed.

Lemma quiet_transform_file (self : folder) (src : string) :
  quiet (os_path_join (output_dir self) "index.xml")
        (transform_file self src).
Proof.
  unfold transform_file. destruct (endswith src "/index.xml").
  - apply quiet_ret.
  - apply quiet_bind.
    + apply quiet_XMLFileTransformer_transform.
    + intros xml. apply quiet_open_write, output_file_not_index.
Qed.

(** C6: when the conversion of a source file raises, after the files
    before it went through, [transform] raises the same exception in the
    same world, so nothing is done for the files after it, and up to
    there no write went to the index of the output directory; and a run
    of [transform] that did write the index went through every source
    file first, without a write to the index before the last of them. *)
Theorem transform_aborts_on_failure (self : folder) (w : world) :
  let index_file := os_path_join (output_dir self) "index.xml" in
  (forall pre src post w1 e w2,
     fst (glob_xml (source_dir self) w) = inr (pre ++ src :: post)%list ->
     for_each (transform_file self) pre w = (inr tt, w1) ->
     transform_file self src w1 = (inl e, w2) ->
     BaseFolderTransformer_transform self w = (inl e, w2) /\
     no_new_write index_file w w2) /\
  (forall r w',
     BaseFolderTransformer_transform self w = (r, w') ->
     ~ no_new_write index_file w w' ->
     exists files w1,
       fst (glob_xml (source_dir self) w) = inr files /\
       for_each (transform_file self) files w = (inr tt, w1) /\
       no_new_write index_file w w1).
Proof.
  intros index_file. split.
  - intros pre src post w1 e w2 Hglob Hpre Hsrc. split.
    + unfold BaseFolderTransformer_transform, bind.
      unfold glob_xml in *. cbn [fst] in Hglob.
      injection Hglob as Hglob. rewrite Hglob.
      rewrite for_each_app, Hpre. simpl. unfold bind. rewrite Hsrc.
      reflexivity.
    + eapply no_new_write_trans.
      * exact (@quiet_for_each _ _ _ pre (quiet_transform_file self)
                 _ _ _ Hpre).
      * eapply quiet_transform_file. exact Hsrc.
  - intros r w' H Hw. unfold BaseFolderTransformer_transform, bind in H.
    unfold glob_xml in *. cbn [fst].
    destruct (for_each _ _ w) as [[e|[]] w1] eqn:E.
    + injection H as _ <-. exfalso. apply Hw.
      exact (@quiet_for_each _ _ _ _ (quiet_transform_file self) _ _ _ E).
    + eexists. exists w1. split; [reflexivity|]. split; [exact E|].
      exact (@quiet_for_each _ _ _ _ (quiet_transform_file self) _ _ _ E).
Qed.

(** In chapter mode the folder operation always raises, and never writes
    the index. *)
Lemma chapter_transform_raises (self : folder) (w : world) :
  cls self = ChapterTransformer ->
  exists e w',
    BaseFolderTransformer_transform self w = (inl e, w') /\
    no_new_write (os_path_join (output_dir self) "index.xml") w w'.
Proof.
  intros Hc. unfold BaseFolderTransformer_transform, bind, glob_xml.
  destruct (for_each _ _ w) as [[e|[]] w1] eqn:E.
  - exists e, w1. split; [reflexivity|].
    exact (@quiet_for_each _ _ _ _ (quiet_transform_file self) _ _ _ E).
  - unfold write_index. rewrite Hc.
    destruct (chapter_write_index self w1) as (e & He & _).
    exists e, w1. split; [exact He|].
    exact (@quiet_for_each _ _ _ _ (quiet_transform_file self) _ _ _ E).
Qed.

End Folder.

Lemma transform_aborts_on_failure_witness :
  exists w2,
    @BaseFolderTransformer_transform Sample.platform Sample.book
      Sample.broken = (inl XMLSyntaxError, w2) /\
    no_new_write "out/index.xml" Sample.broken w2.
Proof.
  destruct (@transform_aborts_on_failure Sample.platform Sample.book
              Sample.broken) as [H _].
  exists (log (EvRead "src/broken.xml")
            (snd (for_each (@transform_file Sample.platform Sample.book)
                    ["src/index.xml"; "src/foo.xml"] Sample.broken))).
  apply (H ["src/index.xml"; "src/foo.xml"] "src/broken.xml"
           ["src/bar.xml"]
           (snd (for_each (@transform_file Sample.platform Sample.book)
                   ["src/index.xml"; "src/foo.xml"] Sample.broken))).
  - reflexivity.
  - reflexivity.
  - reflexivity.
Defined.

(** C5 (the code): in chapter mode the folder operation always raises
    and never writes the index; on the sample directory both sources are
    converted and written, then [write_index] raises [ValueError]: no
    [index.xml] is produced. *)
Theorem chapter_mode_leaves_no_index :
  (forall (platform : Platform) (source output idx : string)
          (incl : list string) (t : option string) (w : world),
     exists e w',
       BaseFolderTransformer_transform
         (mkFolder ChapterTransformer source output idx incl t) w
       = (inl e, w') /\
       no_new_write (os_path_join output "index.xml") w w') /\
  (let r := @main Sample.platform "src" "out" "chapter" Sample.initial in
   fst r = inl ValueError /\
   written (trace (snd r))
   = ["out/section_foo.xml"; "out/section_bar.xml"] /\
   assoc_get (files (snd r)) "out/index.xml" = None /\
   listdir (snd r) "out" = ["section_foo.xml"; "section_bar.xml"]).
Proof.
  split.
  - intros platform source output idx incl t w.
    apply (@chapter_transform_raises platform
             (mkFolder ChapterTransformer source output idx incl t) w).
    reflexivity.
  - vm_compute. repeat split.
Qed.

Section Writes.

Context {platform : Platform}.

Lemma reads_only (w w' : world) :
  (forall p, no_new_write p w w') ->
  exists evs, trace w' = (trace w ++ evs)%list /\ written evs = [].
Proof.
  intros H. destruct (H EmptyString) as (evs & Ht & _).
  exists evs. split; [exact Ht|].
  destruct (written evs) as [|q l] eqn:E; [reflexivity|].
  destruct (H q) as (evs' & Ht' & Hn). exfalso. apply Hn.
  rewrite Ht in Ht'. apply app_inv_head in Ht'. subst evs'.
  rewrite E. left. reflexivity.
Qed.

Lemma open_write_trace (p c : string) (w w' : world) :
  open_write p c w = (inr tt, w') ->
  trace w' = (trace w ++ [EvWrite p c])%list.
Proof.
  unfold open_write. destruct (_ || _); [discriminate|].
  destruct (_ || _); [|discriminate].
  intros H. injection H as <-. reflexivity.
Qed.

(** A source file that is converted is written once, under its output
    name; the index of the source directory is passed over. *)
Lemma transform_file_writes (self : folder) (src : string) (w w' : world) :
  transform_file self src w = (inr tt, w') ->
  exists evs,
    trace w' = (trace w ++ evs)%list /\
    written evs = if endswith src "/index.xml" then []
                  else [output_file self src].
Proof.
  unfold transform_file. destruct (endswith src "/index.xml").
  - intros H. injection H as <-. exists []. rewrite app_nil_r.
    split; reflexivity.
  - unfold bind.
    destruct (XMLFileTransformer_transform _ w) as [[e|xml] w1] eqn:E;
      [discriminate|].
    intros H. apply open_write_trace in H.
    destruct (@reads_only w w1) as (evs & Ht & Hw).
    { intros p. eapply quiet_XMLFileTransformer_transform. exact E. }
    exists (evs ++ [EvWrite (output_file self src) xml])%list. split.
    + rewrite H, Ht, app_assoc. reflexivity.
    + rewrite written_app, Hw. reflexivity.
Qed.

Lemma for_each_writes (self : folder) (l : list string) (w w' : world) :
  for_each (transform_file self) l w = (inr tt, w') ->
  exists evs,
    trace w' = (trace w ++ evs)%list /\
    written evs
    = map (output_file self)
          (filter (fun src => negb (endswith src "/index.xml")) l).
Proof.
  revert w. induction l as [|src r IH]; intros w; simpl.
  - intros H. injection H as <-. exists []. rewrite app_nil_r.
    split; reflexivity.
  - unfold bind.
    destruct (transform_file self src w) as [[e|[]] w1] eqn:E;
      [discriminate|].
    intros H. destruct (transform_file_writes _ _ _ E) as (e1 & T1 & W1).
    destruct (IH _ H) as (e2 & T2 & W2).
    exists (e1 ++ e2)%list. split.
    + rewrite T2, T1, app_assoc. reflexivity.
    + rewrite written_app, W1, W2.
      destruct (endswith src "/index.xml"); reflexivity.
Qed.

(** X1: when the folder operation completes, the class is the book variant,
    and the writes are one per source file other than the index, each
    under its output name, then the index. *)
Lemma transform_success_writes (self : folder) (w w' : world) :
  BaseFolderTransformer_transform self w = (inr tt, w') ->
  cls self = BookTransformer /\
  exists files evs,
    fst (glob_xml (source_dir self) w) = inr files /\
    trace w' = (trace w ++ evs)%list /\
    written evs
    = (map (output_file self)
           (filter (fun src => negb (endswith src "/index.xml")) files)
       ++ [os_path_join (output_dir self) "index.xml"])%list.
Proof.
  unfold BaseFolderTransformer_transform, bind, glob_xml.
  destruct (for_each _ _ w) as [[e|[]] w1] eqn:E; [discriminate|].
  intros H. unfold write_index in H.
  destruct (cls self) eqn:Hc.
  - discriminate.
  - split; [reflexivity|].
    unfold BookTransformer_write_index, write_index_with in H.
    destruct (title self) as [t|]; [|discriminate].
    unfold bind, lift in H. rewrite book_template_format in H.
    apply open_write_trace in H.
    destruct (for_each_writes _ _ _ E) as (evs & Ht & Hw).
    eexists. eexists. split; [reflexivity|]. split.
    + rewrite H, Ht, <- app_assoc. reflexivity.
    + rewrite written_app, Hw. reflexivity.
  - destruct (chapter_write_index self w1) as (e & He & _).
    unfold ChapterTransformer_write_index in He.
    unfold ChapterTransformer_write_index in H. congruence.
Qed.

End Writes.

(* ================================================================== *)
(** * The release notes *)

Section Scenario.

Context {platform : Platform}.

Lemma transform_result (self : XMLFileTransformer) (w : world)
    (source_xml xslt : string) (source_doc xslt_root : node)
    tag attrs text children tail :
  assoc_get (files w) (source_file self) = Some source_xml ->
  etree_XML source_xml = inr source_doc ->
  assoc_get (files w) (xslt_file self) = Some xslt ->
  etree_XML xslt = inr xslt_root ->
  etree_XSLT xslt_root source_doc
    = inr (Some (Element tag attrs text children tail)) ->
  XMLFileTransformer_transform self w
  = (inr (etree_tostring
            (Some (Element (DOCBOOK_NS ++ toplevel self)
                     (normalize_item_attrib attrs) text
                     (Comment WARNING None :: map normalize_ids children)
                     tail))),
     log (EvRead (xslt_file self)) (log (EvRead (source_file self)) w)).
Proof.
  intros Hsrc Hdoc Hxslt Hroot Hres.
  unfold XMLFileTransformer_transform, _xslt_transform, bind, open_read,
    lift, ret.
  rewrite Hsrc, Hdoc. cbn [files log]. rewrite Hxslt, Hroot, Hres.
  reflexivity.
Qed.

Lemma perm3 {A : Type} (a b c : A) (l : list A) :
  Permutation l [a; b; c] ->
  l = [a; b; c] \/ l = [a; c; b] \/ l = [b; a; c] \/
  l = [b; c; a] \/ l = [c; a; b] \/ l = [c; b; a].
Proof.
  intros H. apply Permutation_sym in H.
  destruct (Permutation_vs_cons_inv (Permutation_sym H)) as (l1 & l2 & ->).
  apply Permutation_cons_app_inv in H.
  apply Permutation_length_2_inv in H.
  destruct l1 as [|x [|y [|z l1]]]; simpl in H;
    destruct H as [H|H]; try discriminate;
    try (injection H as -> ->); try (injection H as -> -> ->);
    subst; simpl; tauto.
Qed.

Lemma bind_then {A B : Type} (m : M A) (k : A -> M B) w a w1 r :
  m w = (inr a, w1) -> k a w1 = r -> bind m k w = r.
Proof. intros H <-. unfold bind. rewrite H. reflexivity. Qed.

Lemma bind_ok {A B : Type} (m : M A) (k : A -> M B) w a w1 :
  m w = (inr a, w1) -> bind m k w = k a w1.
Proof. intros H. unfold bind. rewrite H. reflexivity. Qed.

Lemma open_write_ok (p c : string) (w : world) :
  String.eqb (os_path_basename p) EmptyString || isdir_in w p = false ->
  String.eqb (os_path_dirname p) EmptyString
  || isdir_in w (os_path_dirname p) = true ->
  open_write p c w
  = (inr tt, mkWorld (assoc_set (files w) p c) (dirs w)
                     (trace w ++ [EvWrite p c])).
Proof. intros H1 H2. unfold open_write. rewrite H1, H2. reflexivity. Qed.

Lemma transform_file_result (self : folder) (src : string) (w : world)
    (source_xml xslt : string) (source_doc xslt_root : node)
    tag attrs text children tail :
  endswith src "/index.xml" = false ->
  assoc_get (files w) src = Some source_xml ->
  etree_XML source_xml = inr source_doc ->
  assoc_get (files w) DN2DBK = Some xslt ->
  etree_XML xslt = inr xslt_root ->
  etree_XSLT xslt_root source_doc
    = inr (Some (Element tag attrs text children tail)) ->
  transform_file self src w
  = open_write
      (os_path_join (output_dir self)
         (file_toplevel (cls self) ++ "_" ++ os_path_basename src))
      (etree_tostring
         (Some (Element (DOCBOOK_NS ++ file_toplevel (cls self))
                  (normalize_item_attrib attrs) text
                  (Comment WARNING None :: map normalize_ids children)
                  tail)))
      (log (EvRead DN2DBK) (log (EvRead src) w)).
Proof.
  intros Hidx Hsrc Hdoc Hxslt Hroot Hres. unfold transform_file.
  rewrite Hidx.
  apply bind_ok.
  apply (@transform_result
           (XMLFileTransformer__init__ src (file_toplevel (cls self))) w
           source_xml xslt source_doc xslt_root
           tag attrs text children tail); assumption.
Qed.

Ltac file_step Hfile Hcf Hcb Hxf Hxb :=
  lazymatch goal with
  | |- transform_file _ ?src _ = _ =>
      let b := eval vm_compute in (endswith src "/index.xml") in
      lazymatch b with
      | true => reflexivity
      | false =>
          erewrite Hfile;
          [ apply open_write_ok; reflexivity
          | reflexivity
          | reflexivity
          | first [exact Hcf | exact Hcb]
          | first [exact Hxf | exact Hxb]
          | reflexivity ]
      end
  end.
Ltac loop_step Hfile Hcf Hcb Hxf Hxb :=
  lazymatch goal with
  | |- ret _ _ = _ => reflexivity
  | |- bind _ _ _ = _ =>
      eapply bind_then;
      [ file_step Hfile Hcf Hcb Hxf Hxb
      | cbv beta; loop_step Hfile Hcf Hcb Hxf Hxb ]
  end.

(** C3: a source directory that holds, in any order, an index titled
    Release Notes with the references [foo] then [bar], and the files
    [foo.xml] and [bar.xml]: directory mode with the top level [book]
    completes; it writes [chapter_foo.xml] and [chapter_bar.xml], then
    [index.xml]; the output directory holds these three files; the index
    is the text [release_notes_text]: it holds the title element, the
    identifier [release-notes] and the two [xi:include] elements, that
    of [chapter_foo.xml] before that of [chapter_bar.xml], and no
    other. *)
Theorem release_notes_scenario
    (listing : list (string * string)) (ci cf cb cx : string)
    (src_xml foo bar xsl t : node)
    tagf af txf chf tlf tagb ab txb chb tlb :
  Permutation listing [("src/index.xml", ci); ("src/foo.xml", cf);
                       ("src/bar.xml", cb)] ->
  OS_DOC_TOOLS_DIR = "/opt/os_doc_tools" ->
  etree_XML ci = inr src_xml ->
  find_section_title src_xml = Some t ->
  node_text t = Some "Release Notes" ->
  map (fun r => get r "refuri") (iter_tag "reference" src_xml)
    = [Some "foo"; Some "bar"] ->
  etree_XML cx = inr xsl ->
  etree_XML cf = inr foo ->
  etree_XML cb = inr bar ->
  etree_XSLT xsl foo = inr (Some (Element tagf af txf chf tlf)) ->
  etree_XSLT xsl bar = inr (Some (Element tagb ab txb chb tlb)) ->
  let w := mkWorld (listing ++ [(Sample.stylesheet_path, cx)])
                   ["src"] [] in
  exists w' first second,
    main "src" "out" "book" w = (inr tt, w') /\
    assoc_get (files w') "out/chapter_foo.xml"
      = Some (etree_tostring
                (Some (Element "{http://docbook.org/ns/docbook}chapter"
                         (normalize_item_attrib af) txf
                         (Comment
           "WARNING: This file is automatically generated. Do not edit it."
                            None :: map normalize_ids chf)
                         tlf))) /\
    assoc_get (files w') "out/chapter_bar.xml"
      = Some (etree_tostring
                (Some (Element "{http://docbook.org/ns/docbook}chapter"
                         (normalize_item_attrib ab) txb
                         (Comment
           "WARNING: This file is automatically generated. Do not edit it."
                            None :: map normalize_ids chb)
                         tlb))) /\
    assoc_get (files w') "out/index.xml" = Some release_notes_text /\
    written (trace w') = [first; second; "out/index.xml"] /\
    Permutation [first; second]
                ["out/chapter_foo.xml"; "out/chapter_bar.xml"] /\
    Permutation (listdir w' "out")
                ["chapter_foo.xml"; "chapter_bar.xml"; "index.xml"] /\
    contains release_notes_text "<title>Release Notes</title>" = true /\
    contains release_notes_text
      ("xml:id=" ++ quote_mark ++ "release-notes" ++ quote_mark) = true /\
    exists a b c,
      release_notes_text
      = a ++ "<xi:include href=" ++ quote_mark ++ "chapter_foo.xml"
          ++ quote_mark ++ "/>"
          ++ b ++ "<xi:include href=" ++ quote_mark ++ "chapter_bar.xml"
          ++ quote_mark ++ "/>" ++ c /\
      contains a "<xi:include" = false /\
      contains b "<xi:include" = false /\
      contains c "<xi:include" = false.
Proof.
  intros Hperm HD Hci Ht Htt Hrefs Hcx Hcf Hcb Hxf Hxb w.
  assert (HDN : DN2DBK = Sample.stylesheet_path).
  { unfold DN2DBK. rewrite HD. reflexivity. }
  assert (Hparse : forall w0,
    assoc_get (files w0) "src/index.xml" = Some ci ->
    parse_index (mkFolder BookTransformer "src" "out" "index.xml" [] None) w0
    = (inr (mkFolder BookTransformer "src" "out" "index.xml"
              ["chapter_foo.xml"; "chapter_bar.xml"]
              (Some "Release Notes")),
       log (EvRead "src/index.xml") w0)).
  { intros w0 Hl.
    rewrite (@parse_index_read _
               (mkFolder BookTransformer "src" "out" "index.xml" [] None)
               w0 ci src_xml Hl Hci).
    cbn [cls source_dir output_dir index includes file_toplevel].
    destruct (iter_tag "reference" src_xml) as [|r1 [|r2 [|r3 rs]]];
      try discriminate.
    injection Hrefs as Hr1 Hr2.
    cbn [parse_references]. rewrite Hr1, Hr2.
    cbn [str_in Ascii.eqb Bool.eqb orb app]. rewrite Ht, Htt.
    reflexivity. }
  assert (Hfile : forall src content doc tag a tx ch tl w0,
    endswith src "/index.xml" = false ->
    assoc_get (files w0) src = Some content ->
    etree_XML content = inr doc ->
    etree_XSLT xsl doc = inr (Some (Element tag a tx ch tl)) ->
    assoc_get (files w0) Sample.stylesheet_path = Some cx ->
    forall self,
    transform_file self src w0
    = open_write
        (os_path_join (output_dir self)
           (file_toplevel (cls self) ++ "_" ++ os_path_basename src))
        (etree_tostring
           (Some (Element (DOCBOOK_NS ++ file_toplevel (cls self))
                    (normalize_item_attrib a) tx
                    (Comment WARNING None :: map normalize_ids ch) tl)))
        (log (EvRead Sample.stylesheet_path) (log (EvRead src) w0))).
  { intros src content doc tag a tx ch tl w0 H1 H2 H3 H4 H5 self.
    rewrite <- HDN in *.
    eapply transform_file_result; eassumption. }
  assert (Hbook : forall self w0,
    title self = Some "Release Notes" ->
    includes self = ["chapter_foo.xml"; "chapter_bar.xml"] ->
    BookTransformer_write_index self w0
    = open_write (os_path_join (output_dir self) "index.xml")
        release_notes_text w0).
  { intros self w0 H1 H2.
    rewrite (@book_write_index self "Release Notes" w0 H1), H2.
    replace release_notes_text
      with (book_index (xml_id_of "Release Notes") "Release Notes"
              (includes_text ["chapter_foo.xml"; "chapter_bar.xml"]))
      by (vm_compute; reflexivity).
    reflexivity. }
  assert (Hindex :
    contains release_notes_text "<title>Release Notes</title>" = true /\
    contains release_notes_text
      ("xml:id=" ++ quote_mark ++ "release-notes" ++ quote_mark) = true /\
    exists a b c,
      release_notes_text
      = a ++ "<xi:include href=" ++ quote_mark ++ "chapter_foo.xml"
          ++ quote_mark ++ "/>"
          ++ b ++ "<xi:include href=" ++ quote_mark ++ "chapter_bar.xml"
          ++ quote_mark ++ "/>" ++ c /\
      contains a "<xi:include" = false /\
      contains b "<xi:include" = false /\
      contains c "<xi:include" = false).
  { split; [vm_compute; reflexivity|]. split; [vm_compute; reflexivity|].
    exists (str_before release_notes_text "<xi:include"),
      (line_feed ++ "    "), (line_feed ++ "</book>" ++ line_feed).
    repeat split; vm_compute; reflexivity. }
  destruct (perm3 Hperm) as [-> | [-> | [-> | [-> | [-> | -> ]]]]]; subst w;
  (eexists; eexists; eexists; split;
   [ unfold main;
     eapply bind_then; [reflexivity|]; cbv beta;
     change (isdir_in _ "src") with true; cbv iota;
     change (assoc_get TRANSFORMERS "book") with (Some BookTransformer);
     cbv iota beta;
     eapply bind_then;
     [ unfold BaseFolderTransformer__init__;
       eapply bind_then; [apply Hparse; reflexivity | reflexivity]
     | cbv beta; unfold BaseFolderTransformer_transform;
       eapply bind_then; [reflexivity|]; cbv beta;
       eapply bind_then;
       [ lazymatch goal with
         | |- for_each _ ?l _ = _ =>
             let l' := eval vm_compute in l in change l with l'
         end;
         cbn [for_each];
         cbn [for_each];
         loop_step Hfile Hcf Hcb Hxf Hxb
       | cbv beta; unfold write_index; cbn [cls];
         rewrite Hbook by reflexivity;
         apply open_write_ok; reflexivity ] ]
   | split; [reflexivity|]; split; [reflexivity|];
     split; [reflexivity|]; split; [reflexivity|];
     split; [first [apply Permutation_refl | apply perm_swap]|];
     split; [|exact Hindex];
     match goal with
     | |- Permutation ?l _ =>
         let l' := eval vm_compute in l in change l with l'
     end;
     first [apply Permutation_refl | apply perm_swap] ]).
Qed.
End Scenario.

Lemma release_notes_scenario_witness :
  exists w',
    @main Sample.platform "src" "out" "book" Sample.initial = (inr tt, w') /\
    assoc_get (files w') "out/index.xml" = Some release_notes_text /\
    Permutation (listdir w' "out")
                ["chapter_foo.xml"; "chapter_bar.xml"; "index.xml"].
Proof.
  destruct (@release_notes_scenario Sample.platform Sample.source_files
              Sample.index_text Sample.foo_text Sample.bar_text
              Sample.stylesheet_text
              Sample.index_doc Sample.foo_doc Sample.bar_doc
              Sample.stylesheet_doc
              (Element "title" [] (Some "Release Notes") [] None)
              (DOCBOOK_NS ++ "section") [(id_attrib, "intro id1")] None
              [Comment "x" None; Element "p" [] None [] None] None
              (DOCBOOK_NS ++ "section") [] None [] None
              (Permutation_refl _) eq_refl eq_refl eq_refl eq_refl eq_refl
              eq_refl eq_refl eq_refl eq_refl eq_refl)
    as (w' & first & second & H & _ & _ & Hi & _ & _ & Hl & _).
  exists w'. split; [exact H|]. split; [exact Hi | exact Hl].
Defined.

(* ================================================================== *)
(** * The rest of the program *)

(** ** Identifiers *)

Lemma split_space_cons (a s : string) :
  str_in " "%char a = false ->
  split_space (a ++ String " "%char s) = a :: split_space s.
Proof.
  induction a as [|c r IH]; simpl; intros H; [reflexivity|].
  apply orb_false_iff in H. destruct H as [Hc Hr].
  rewrite Hc, (IH Hr). reflexivity.
Qed.

(** X15: [' '.join(tokens).split(' ')] gives the tokens back, and on such a
    list the loop of [_custom_transform] picks what the rule says: a
    single token, else the first when the last is an auto-generated id,
    else the last. *)
Theorem choose_id_join (tokens : list string) :
  tokens <> [] ->
  Forall (fun t => str_in " "%char t = false) tokens ->
  split_space (str_join " " tokens) = tokens /\
  choose_id (str_join " " tokens) = select_token tokens.
Proof.
  intros Hne Hall.
  assert (Hs : split_space (str_join " " tokens) = tokens).
  { induction Hall as [|t r Ht Hr IH]; [congruence|].
    destruct r as [|t' r'].
    - simpl. apply split_space_spaceless. exact Ht.
    - change (str_join " " (t :: t' :: r'))
        with (t ++ String " "%char (str_join " " (t' :: r'))).
      rewrite split_space_cons by exact Ht.
      rewrite IH by discriminate. reflexivity. }
  split; [exact Hs|]. rewrite choose_id_select, Hs. reflexivity.
Qed.

Lemma choose_id_join_witness :
  choose_id (str_join " " ["intro"; "section"; "id12"]) = "intro".
Proof.
  rewrite (proj2 (@choose_id_join ["intro"; "section"; "id12"]
                    ltac:(discriminate)
                    ltac:(repeat constructor))).
  reflexivity.
Defined.

Lemma assoc_set_keys {V : Type} (d : list (string * V)) k v v' :
  assoc_get d k = Some v -> map fst (assoc_set d k v') = map fst d.
Proof.
  induction d as [|[k0 v0] r IH]; simpl; [discriminate|].
  destruct (String.eqb k0 k) eqn:E; intros H; simpl.
  - apply String.eqb_eq in E. subst. reflexivity.
  - rewrite (IH H). reflexivity.
Qed.

Lemma normalize_item_attrib_keys (a : attrib) :
  map fst (normalize_item_attrib a) = map fst a.
Proof.
  unfold normalize_item_attrib.
  destruct (assoc_get a id_attrib) as [v|] eqn:E; [|reflexivity].
  eapply assoc_set_keys. exact E.
Qed.

(** X14: identifier normalization neither adds, drops nor reorders an
    attribute, and keeps every value but that of [xml:id]: item by item,
    in document order, the attribute names are those of the input. *)
Theorem normalize_ids_keeps_attributes (root : node) :
  map (fun item => map fst (node_attrib item)) (iter (normalize_ids root))
  = map (fun item => map fst (node_attrib item)) (iter root) /\
  forall k, k <> id_attrib ->
    map (fun item => get item k) (iter (normalize_ids root))
    = map (fun item => get item k) (iter root).
Proof.
  split.
  - rewrite iter_normalize_ids, map_map. apply map_ext.
    intros [tag attrs text children tail| |]; simpl;
      [apply normalize_item_attrib_keys | reflexivity | reflexivity].
  - intros k Hk. rewrite iter_normalize_ids, map_map. apply map_ext.
    intros [tag attrs text children tail| |]; try reflexivity.
    unfold get. cbn [normalize_ids node_attrib].
    unfold normalize_item_attrib.
    destruct (assoc_get attrs id_attrib); [|reflexivity].
    apply assoc_get_set_other. exact Hk.
Qed.

Lemma get_normalize_ids_spaceless (item : node) (v : string) :
  get (normalize_ids item) id_attrib = Some v -> str_in " "%char v = false.
Proof.
  destruct item as [tag attrs text children tail| |]; try discriminate.
  unfold get. cbn [normalize_ids node_attrib].
  unfold normalize_item_attrib.
  destruct (assoc_get attrs id_attrib) as [v0|] eqn:E.
  - rewrite assoc_get_set_same. intros H. injection H as <-.
    apply choose_id_spaceless.
  - rewrite E. discriminate.
Qed.

(** X13: after [_custom_transform] no [xml:id] of the tree holds a space. *)
Theorem custom_transform_ids_spaceless (toplevel : string)
    (tree : etree) (root' : node) :
  _custom_transform toplevel tree = inr (Some root') ->
  Forall (fun item =>
            forall v, get item id_attrib = Some v ->
                      str_in " "%char v = false)
         (iter root').
Proof.
  destruct tree as [[tag attrs text children tail| |]|]; try discriminate.
  intros H.
  assert (E : root' = normalize_ids
                        (Element (DOCBOOK_NS ++ toplevel) attrs text
                           (Comment WARNING None :: children) tail))
    by (injection H as <-; reflexivity).
  rewrite E, iter_normalize_ids. apply Forall_forall.
  intros item Hin. apply in_map_iff in Hin.
  destruct Hin as (x & <- & _). intros v.
  apply get_normalize_ids_spaceless.
Qed.

Lemma custom_transform_ids_spaceless_witness :
  exists root',
    _custom_transform "chapter"
      (Some (Element "section" [(id_attrib, "a id1")] None
               [Element "para" [(id_attrib, "b c")] None [] None] None))
    = inr (Some root') /\
    Forall (fun item =>
              forall v, get item id_attrib = Some v ->
                        str_in " "%char v = false)
           (iter root').
Proof.
  eexists. split; [reflexivity|].
  apply (@custom_transform_ids_spaceless "chapter"
           (Some (Element "section" [(id_attrib, "a id1")] None
                    [Element "para" [(id_attrib, "b c")] None [] None]
                    None))).
  reflexivity.
Defined.

(** X16: the identifier that [write_index] derives from the title has the
    length of the title and holds no space and no upper-case letter. *)
Theorem xml_id_of_shape (title : string) :
  String.length (xml_id_of title) = String.length title /\
  str_in " "%char (xml_id_of title) = false /\
  str_lower (xml_id_of title) = xml_id_of title.
Proof.
  unfold xml_id_of. induction title as [|c r (IH1 & IH2 & IH3)];
    [repeat split|].
  simpl. rewrite IH1, IH2, IH3. repeat split.
  - destruct (Ascii.eqb (lower_char c) " ") eqn:E; [reflexivity|].
    rewrite E. reflexivity.
  - f_equal. destruct (Ascii.eqb (lower_char c) " "); [reflexivity|].
    unfold lower_char.
    destruct (Nat.leb 65 (nat_of_ascii c) && Nat.leb (nat_of_ascii c) 90)
      eqn:E.
    + apply andb_true_iff in E. destruct E as [E1 E2].
      apply Nat.leb_le in E1. apply Nat.leb_le in E2.
      rewrite nat_ascii_embedding by lia.
      replace (Nat.leb (nat_of_ascii c + 32) 90) with false
        by (symmetry; apply Nat.leb_gt; lia).
      rewrite andb_false_r. reflexivity.
    + rewrite E. reflexivity.
Qed.

(** ** Single-file conversion *)

Section SingleFileEffects.

Context {platform : Platform}.

(** X10: [XMLFileTransformer.transform] changes no file and no directory; it
    opens the source, then the stylesheet, each at most once, and a
    result comes only after both were read. *)
Theorem transform_reads_source_then_stylesheet
    (self : XMLFileTransformer) (w w' : world) (r : exn + string) :
  XMLFileTransformer_transform self w = (r, w') ->
  files w' = files w /\ dirs w' = dirs w /\
  (trace w' = trace w \/
   trace w' = (trace w ++ [EvRead (source_file self)])%list \/
   trace w' = (trace w ++ [EvRead (source_file self);
                           EvRead (xslt_file self)])%list) /\
  (forall xml, r = inr xml ->
     trace w' = (trace w ++ [EvRead (source_file self);
                             EvRead (xslt_file self)])%list).
Proof.
  unfold XMLFileTransformer_transform, _xslt_transform, bind, open_read,
    lift, ret.
  destruct (assoc_get (files w) (source_file self)) as [text|].
  2:{ intros H. injection H as <- <-. repeat split; auto; try discriminate. }
  destruct (etree_XML text) as [e|doc].
  { intros H. injection H as <- <-. repeat split; auto; try discriminate. }
  cbn [files log].
  destruct (assoc_get (files w) (xslt_file self)) as [xslt|].
  2:{ intros H. injection H as <- <-. repeat split; auto; try discriminate. }
  assert (Hboth :
    trace (log (EvRead (xslt_file self)) (log (EvRead (source_file self)) w))
    = (trace w ++ [EvRead (source_file self); EvRead (xslt_file self)])%list).
  { cbn [trace log]. rewrite <- app_assoc. reflexivity. }
  destruct (etree_XML xslt) as [e|xslt_root].
  { intros H. injection H as <- <-. repeat split; auto; try discriminate. }
  destruct (etree_XSLT xslt_root doc) as [e|tree].
  { intros H. injection H as <- <-. repeat split; auto; try discriminate. }
  destruct (_custom_transform (toplevel self) tree) as [e|tree'].
  { intros H. injection H as <- <-. repeat split; auto; try discriminate. }
  intros H. injection H as <- <-. repeat split; auto.
Qed.

(** X11: a source that is missing or is not well-formed stops the conversion
    before the stylesheet is opened: [IOError] in a world left as it
    was, or the parser's exception after the read of the source. *)
Theorem transform_bad_source (self : XMLFileTransformer) (w : world) :
  (assoc_get (files w) (source_file self) = None ->
   XMLFileTransformer_transform self w = (inl IOError, w)) /\
  (forall text e,
     assoc_get (files w) (source_file self) = Some text ->
     etree_XML text = inl e ->
     XMLFileTransformer_transform self w
     = (inl e, log (EvRead (source_file self)) w)).
Proof.
  unfold XMLFileTransformer_transform, bind, open_read, lift. split.
  - intros ->. reflexivity.
  - intros text e -> ->. reflexivity.
Qed.

(** X12: a stylesheet result without a root element makes the conversion
    raise [AttributeError], whatever the requested tag. *)
Theorem transform_rootless_result (self : XMLFileTransformer) (w : world)
    (source_xml xslt : string) (source_doc xslt_root : node) :
  assoc_get (files w) (source_file self) = Some source_xml ->
  etree_XML source_xml = inr source_doc ->
  assoc_get (files w) (xslt_file self) = Some xslt ->
  etree_XML xslt = inr xslt_root ->
  etree_XSLT xslt_root source_doc = inr None ->
  fst (XMLFileTransformer_transform self w) = inl AttributeError.
Proof.
  intros Hsrc Hdoc Hxslt Hroot Hres.
  unfold XMLFileTransformer_transform, _xslt_transform, bind, open_read,
    lift.
  rewrite Hsrc, Hdoc. cbn [files log]. rewrite Hxslt, Hroot, Hres.
  reflexivity.
Qed.

End SingleFileEffects.

Lemma transform_reads_source_then_stylesheet_witness :
  exists xml w',
    @XMLFileTransformer_transform Sample.platform
      (@XMLFileTransformer__init__ Sample.platform "src/bar.xml" "book")
      Sample.initial = (inr xml, w') /\
    trace w' = [EvRead "src/bar.xml"; EvRead Sample.stylesheet_path].
Proof.
  eexists. eexists. split; [reflexivity|].
  apply (proj2 (proj2 (proj2
    (@transform_reads_source_then_stylesheet Sample.platform
       (@XMLFileTransformer__init__ Sample.platform "src/bar.xml" "book")
       Sample.initial _ _ eq_refl))) _ eq_refl).
Defined.

Lemma transform_bad_source_witness :
  @XMLFileTransformer_transform Sample.platform
    (@XMLFileTransformer__init__ Sample.platform "src/none.xml" "book")
    Sample.initial = (inl IOError, Sample.initial) /\
  @XMLFileTransformer_transform Sample.platform
    (@XMLFileTransformer__init__ Sample.platform "src/broken.xml" "book")
    Sample.broken
  = (inl XMLSyntaxError, log (EvRead "src/broken.xml") Sample.broken).
Proof.
  split.
  - apply (proj1 (@transform_bad_source Sample.platform
             (@XMLFileTransformer__init__ Sample.platform
                "src/none.xml" "book") Sample.initial)).
    reflexivity.
  - apply (proj2 (@transform_bad_source Sample.platform
             (@XMLFileTransformer__init__ Sample.platform
                "src/broken.xml" "book") Sample.broken)
             "<document" XMLSyntaxError); reflexivity.
Defined.

Lemma transform_rootless_result_witness :
  fst (@XMLFileTransformer_transform More.rootless
         (@XMLFileTransformer__init__ More.rootless "src/foo.xml" "chapter")
         Sample.initial) = inl AttributeError.
Proof.
  apply (@transform_rootless_result More.rootless
           (@XMLFileTransformer__init__ More.rootless
              "src/foo.xml" "chapter") Sample.initial
           Sample.foo_text Sample.stylesheet_text
           Sample.foo_doc Sample.stylesheet_doc); reflexivity.
Defined.

(** ** The folder operation *)

Lemma open_write_failure (p c : string) (w w' : world) (e : exn) :
  open_write p c w = (inl e, w') -> w' = w.
Proof.
  unfold open_write. destruct (_ || _).
  - intros H. injection H as _ <-. reflexivity.
  - destruct (_ || _); [discriminate|].
    intros H. injection H as _ <-. reflexivity.
Qed.

Lemma open_write_success (p c : string) (w w' : world) :
  open_write p c w = (inr tt, w') ->
  files w' = assoc_set (files w) p c /\ dirs w' = dirs w /\
  trace w' = (trace w ++ [EvWrite p c])%list.
Proof.
  unfold open_write. destruct (_ || _); [discriminate|].
  destruct (_ || _); [|discriminate].
  intros H. injection H as <-. repeat split.
Qed.

Lemma str_rev_onto_app (s acc : string) :
  str_rev_onto s acc = str_rev_onto s EmptyString ++ acc.
Proof.
  revert acc. induction s as [|c r IH]; intros acc; [reflexivity|].
  simpl. rewrite (IH (String c acc)), (IH (String c EmptyString)).
  rewrite append_assoc. reflexivity.
Qed.

Lemma str_rev_app (a b : string) : str_rev (a ++ b) = str_rev b ++ str_rev a.
Proof.
  unfold str_rev. induction a as [|c r IH]; simpl.
  - rewrite append_nil_r. reflexivity.
  - rewrite (str_rev_onto_app (r ++ b)), IH.
    rewrite (str_rev_onto_app r (String c EmptyString)).
    rewrite append_assoc. reflexivity.
Qed.

Lemma prefix_app (p x : string) : String.prefix p (p ++ x) = true.
Proof.
  induction p as [|c r IH]; simpl; [destruct x; reflexivity|].
  destruct (ascii_dec c c); [exact IH | contradiction].
Qed.

Lemma endswith_app (a b : string) : endswith (a ++ b) b = true.
Proof. unfold endswith. rewrite str_rev_app. apply prefix_app. Qed.

Section FolderMore.

Context {platform : Platform}.

Lemma XMLFileTransformer_transform_files
    (self : XMLFileTransformer) (w w' : world) (r : exn + string) :
  XMLFileTransformer_transform self w = (r, w') ->
  files w' = files w /\ dirs w' = dirs w /\
  exists evs, trace w' = (trace w ++ evs)%list /\ written evs = [].
Proof.
  intros H.
  assert (Hfd : files w' = files w /\ dirs w' = dirs w).
  { revert H.
    unfold XMLFileTransformer_transform, _xslt_transform, bind, open_read,
      lift, ret.
    destruct (assoc_get (files w) (source_file self)) as [text|];
      [|intros H; injection H as _ <-; split; reflexivity].
    destruct (etree_XML text) as [e|doc];
      [intros H; injection H as _ <-; split; reflexivity|].
    cbn [files log].
    destruct (assoc_get (files w) (xslt_file self)) as [xslt|];
      [|intros H; injection H as _ <-; split; reflexivity].
    destruct (etree_XML xslt) as [e|xslt_root];
      [intros H; injection H as _ <-; split; reflexivity|].
    destruct (etree_XSLT xslt_root doc) as [e|tree];
      [intros H; injection H as _ <-; split; reflexivity|].
    destruct (_custom_transform (toplevel self) tree) as [e|tree'];
      intros H; injection H as _ <-; split; reflexivity. }
  destruct Hfd as [Hf Hd]. split; [exact Hf|]. split; [exact Hd|].
  apply reads_only. intros p.
  eapply quiet_XMLFileTransformer_transform. exact H.
Qed.

(** X2: a source whose conversion or whose write raises leaves every file
    and directory as it was: the output file is opened only once the
    conversion is done. *)
Theorem transform_file_failure_keeps_files
    (self : folder) (src : string) (w w' : world) (e : exn) :
  transform_file self src w = (inl e, w') ->
  files w' = files w /\ dirs w' = dirs w /\
  exists evs, trace w' = (trace w ++ evs)%list /\ written evs = [].
Proof.
  unfold transform_file. destruct (endswith src "/index.xml");
    [discriminate|].
  unfold bind.
  destruct (XMLFileTransformer_transform _ w) as [[e'|xml] w1] eqn:E.
  - intros H. injection H as _ <-.
    eapply XMLFileTransformer_transform_files. exact E.
  - intros H. apply open_write_failure in H. subst w'.
    eapply XMLFileTransformer_transform_files. exact E.
Qed.

(** X3: two sources go to the same output file only if they have the same
    base name, and no source goes to the index of the output
    directory. *)
Theorem output_file_injective (self : folder) (a b : string) :
  (output_file self a = output_file self b ->
   os_path_basename a = os_path_basename b) /\
  output_file self a <> os_path_join (output_dir self) "index.xml".
Proof.
  split; [|apply output_file_not_index].
  unfold output_file, os_path_join.
  replace (startswith (file_toplevel (cls self) ++ "_"
                       ++ os_path_basename a) "/") with false
    by (destruct (cls self); reflexivity).
  replace (startswith (file_toplevel (cls self) ++ "_"
                       ++ os_path_basename b) "/") with false
    by (destruct (cls self); reflexivity).
  destruct (_ || _); intros H.
  - apply append_inj_l in H. apply append_inj_l in H.
    apply (append_inj_l "_") in H. exact H.
  - apply append_inj_l in H. apply (append_inj_l "/") in H.
    apply append_inj_l in H. apply (append_inj_l "_") in H. exact H.
Qed.

(** X4: the loop passes over the index of a directory with a name; with the
    empty directory name [glob] lists the index as [index.xml], which
    the test does not match: it is converted like any source. *)
Theorem index_skipped_unless_dir_empty (self : folder) :
  (forall d w, d <> EmptyString ->
     transform_file self (os_path_join d "index.xml") w = (inr tt, w)) /\
  (forall w text,
     assoc_get (files w) "index.xml" = Some text ->
     exists paths,
       fst (glob_xml EmptyString w) = inr paths /\
       In "index.xml" paths /\
       transform_file self "index.xml" w
       = bind (XMLFileTransformer_transform
                 (XMLFileTransformer__init__ "index.xml"
                    (file_toplevel (cls self))))
              (fun xml => open_write (output_file self "index.xml") xml) w).
Proof.
  split.
  - intros d w Hd. unfold transform_file.
    replace (endswith (os_path_join d "index.xml") "/index.xml") with true;
      [reflexivity|].
    symmetry. unfold os_path_join.
    replace (startswith "index.xml" "/") with false by reflexivity.
    destruct (String.eqb d EmptyString) eqn:E.
    { apply String.eqb_eq in E. contradiction. }
    cbn [orb]. destruct (endswith d "/") eqn:Es.
    + unfold endswith in *. rewrite str_rev_app.
      change (str_rev "/") with "/" in Es.
      destruct (str_rev d) as [|c r]; [discriminate|].
      change (String.prefix "/" (String c r))
        with (if ascii_dec "/" c then String.prefix EmptyString r
              else false) in Es.
      destruct (ascii_dec "/" c) as [<-|]; [|discriminate].
      change (str_rev "index.xml" ++ String "/" r)
        with (str_rev "/index.xml" ++ r).
      apply prefix_app.
    + apply (endswith_app d "/index.xml").
  - intros w text Hf. eexists. split; [reflexivity|]. split; [|reflexivity].
    change (os_path_dirname (os_path_join EmptyString "*.xml"))
      with EmptyString.
    apply in_map_iff. exists "index.xml". split; [reflexivity|].
    apply filter_In. split; [|reflexivity].
    unfold listdir. apply in_or_app. left.
    apply in_flat_map. exists ("index.xml", text). split; [|left; reflexivity].
    clear - Hf. induction (files w) as [|[k v] r IH]; [discriminate|].
    simpl in Hf. destruct (String.eqb k "index.xml") eqn:E.
    + apply String.eqb_eq in E. injection Hf as ->. subst. left. reflexivity.
    + right. apply IH. exact Hf.
Qed.

End FolderMore.

Section Construction.

Context {platform : Platform}.

Lemma parse_index_success (self self' : folder) (w w1 : world) :
  parse_index self w = (inr self', w1) ->
  w1 = log (EvRead (os_path_join (source_dir self) "index.xml")) w /\
  cls self' = cls self /\ source_dir self' = source_dir self /\
  output_dir self' = output_dir self /\ index self' = index self.
Proof.
  unfold parse_index, bind, open_read, lift.
  destruct (assoc_get (files w) _) as [text|]; [|discriminate].
  destruct (etree_XML text) as [e|src_xml]; [discriminate|].
  destruct (parse_references _ _ _) as [e|inc]; [discriminate|].
  destruct (find_section_title src_xml) as [t|]; [|discriminate].
  intros H. injection H as <- <-. repeat split.
Qed.

Lemma makedirs_isdir (p : string) (w w' : world) :
  os_makedirs p w = (inr tt, w') ->
  isdir_in w' p = true /\ files w' = files w /\
  trace w' = (trace w ++ [EvMakedirs p])%list.
Proof.
  unfold os_makedirs.
  destruct (assoc_get (files w) (norm_dir p)); [discriminate|].
  destruct (_ || _); [discriminate|].
  intros H. injection H as <-. repeat split.
  unfold isdir_in. cbn [dirs].
  rewrite !existsb_app. cbn [existsb]. rewrite String.eqb_refl.
  rewrite orb_true_r, orb_true_r. reflexivity.
Qed.

(** X7: a transformer that is constructed has its output directory in place;
    the constructor wrote no file, changed none, and left the
    directories alone when the output directory was there already. *)
Theorem init_makes_output_dir (c : folder_class)
    (source output idx : string) (w w' : world) (self : folder) :
  BaseFolderTransformer__init__ c source output idx w = (inr self, w') ->
  isdir_in w' output = true /\
  files w' = files w /\
  written (trace w') = written (trace w) /\
  (isdir_in w output = true -> dirs w' = dirs w) /\
  cls self = c /\ source_dir self = source /\ output_dir self = output.
Proof.
  unfold BaseFolderTransformer__init__, bind.
  destruct (parse_index _ w) as [[e|self1] w1] eqn:Ep; [discriminate|].
  apply parse_index_success in Ep.
  cbn [cls source_dir output_dir index] in Ep.
  destruct Ep as (-> & Hc & Hs & Ho & _).
  unfold os_path_isdir, ret.
  replace (isdir_in (log (EvRead (os_path_join source "index.xml")) w)
                    output)
    with (isdir_in w output) by reflexivity.
  destruct (isdir_in w output) eqn:Ed; cbn [negb].
  - intros H. injection H as <- <-. repeat split; auto.
    cbn [trace log]. rewrite written_app, app_nil_r. reflexivity.
  - destruct (os_makedirs output _) as [[e|[]] w2] eqn:Em; [discriminate|].
    intros H. injection H as <- <-.
    apply makedirs_isdir in Em. destruct Em as (Hd & Hf & Ht).
    repeat split; auto; try discriminate.
    rewrite Ht. cbn [trace log]. rewrite !written_app.
    cbn [written flat_map app]. rewrite !app_nil_r. reflexivity.
Qed.

(** X8: without an index that can be read and parsed the constructor
    raises before anything else happens: [IOError] in a world left as
    it was when [index.xml] is missing, the parser's exception after
    the read when it is not well-formed. *)
Theorem init_bad_index (c : folder_class) (source output idx : string)
    (w : world) :
  (assoc_get (files w) (os_path_join source "index.xml") = None ->
   BaseFolderTransformer__init__ c source output idx w = (inl IOError, w)) /\
  (forall text e,
     assoc_get (files w) (os_path_join source "index.xml") = Some text ->
     etree_XML text = inl e ->
     BaseFolderTransformer__init__ c source output idx w
     = (inl e, log (EvRead (os_path_join source "index.xml")) w)).
Proof.
  unfold BaseFolderTransformer__init__, parse_index, bind, open_read, lift.
  cbn [source_dir]. split.
  - intros ->. reflexivity.
  - intros text e -> ->. reflexivity.
Qed.

(** X9: the [index] argument of the constructor is stored and never read:
    whatever it is, the constructor reads [index.xml], and [transform]
    does the same. *)
Theorem index_argument_ignored (c : folder_class)
    (source output idx idx' : string) :
  (forall w,
     BaseFolderTransformer__init__ c source output idx w
     = match BaseFolderTransformer__init__ c source output idx' w with
       | (inr self, w') =>
           (inr (mkFolder (cls self) (source_dir self) (output_dir self)
                          idx (includes self) (title self)), w')
       | (inl e, w') => (inl e, w')
       end) /\
  (forall incl t w,
     BaseFolderTransformer_transform (mkFolder c source output idx incl t) w
     = BaseFolderTransformer_transform
         (mkFolder c source output idx' incl t) w).
Proof.
  split.
  - intros w.
    unfold BaseFolderTransformer__init__, parse_index, bind, open_read,
      lift, os_path_isdir, ret.
    cbn [cls source_dir output_dir index includes].
    destruct (assoc_get (files w) _) as [text|]; [|reflexivity].
    destruct (etree_XML text) as [e|src_xml]; [reflexivity|].
    destruct (parse_references _ _ _) as [e|inc]; [reflexivity|].
    destruct (find_section_title src_xml) as [t|]; [|reflexivity].
    destruct (negb _).
    + destruct (os_makedirs output _) as [[e|[]] w2]; reflexivity.
    + reflexivity.
  - intros incl t w. reflexivity.
Qed.

(** X5: when the title element of the index has no text the title parsed
    is [None]; and with such a title [transform] of a book or a chapter
    converts every source before it raises [AttributeError] in
    [write_index]. *)
Theorem transform_without_title_text :
  (forall (c : folder_class) (source output idx : string) (w : world)
          (text : string) (src_xml t : node),
     assoc_get (files w) (os_path_join source "index.xml") = Some text ->
     etree_XML text = inr src_xml ->
     Forall (fun r => get r "refuri" <> None)
            (iter_tag "reference" src_xml) ->
     find_section_title src_xml = Some t ->
     node_text t = None ->
     exists self,
       fst (parse_index (mkFolder c source output idx [] None) w)
         = inr self /\
       title self = None) /\
  (forall (self : folder) (w w1 : world) (paths : list string),
     title self = None ->
     cls self <> BaseFolderTransformer ->
     fst (glob_xml (source_dir self) w) = inr paths ->
     for_each (transform_file self) paths w = (inr tt, w1) ->
     BaseFolderTransformer_transform self w = (inl AttributeError, w1)).
Proof.
  split.
  - intros c source output idx w text src_xml t Hf Hx Hall Ht Htext.
    pose proof (@parse_index_read _ (mkFolder c source output idx [] None)
                  w text src_xml Hf Hx) as Hp.
    cbn [cls source_dir output_dir index includes] in Hp.
    rewrite (parse_references_all _ _ Hall), Ht, Htext in Hp.
    rewrite Hp. eexists. split; reflexivity.
  - intros self w w1 paths Ht Hc Hg Hl.
    unfold BaseFolderTransformer_transform, bind.
    unfold glob_xml in *. cbn [fst] in Hg. injection Hg as Hg.
    rewrite Hg, Hl. unfold write_index.
    destruct (cls self); [contradiction| |];
      unfold BookTransformer_write_index, ChapterTransformer_write_index,
        write_index_with; rewrite Ht; reflexivity.
Qed.

(** X6: an instance of the base class converts every source, then raises
    [NotImplementedError]. *)
Theorem base_transform_not_implemented (self : folder) (w w1 : world)
    (paths : list string) :
  cls self = BaseFolderTransformer ->
  fst (glob_xml (source_dir self) w) = inr paths ->
  for_each (transform_file self) paths w = (inr tt, w1) ->
  BaseFolderTransformer_transform self w = (inl NotImplementedError, w1) /\
  exists evs,
    trace w1 = (trace w ++ evs)%list /\
    written evs
    = map (output_file self)
          (filter (fun src => negb (endswith src "/index.xml")) paths).
Proof.
  intros Hc Hg Hl. split.
  - unfold BaseFolderTransformer_transform, bind.
    unfold glob_xml in *. cbn [fst] in Hg. injection Hg as Hg.
    rewrite Hg, Hl. unfold write_index. rewrite Hc. reflexivity.
  - apply for_each_writes. exact Hl.
Qed.

(** X17: in file mode [main] writes the output file, and only that, once the
    conversion is done; when it raises, no file has changed. *)
Theorem main_file_mode (source output toplevel : string)
    (w w' : world) (r : exn + unit) :
  isdir_in w source = false ->
  main source output toplevel w = (r, w') ->
  dirs w' = dirs w /\
  match r with
  | inr _ =>
      exists xml evs,
        fst (XMLFileTransformer_transform
               (XMLFileTransformer__init__ source toplevel) w) = inr xml /\
        files w' = assoc_set (files w) output xml /\
        trace w' = (trace w ++ evs)%list /\ written evs = [output]
  | inl _ =>
      files w' = files w /\
      exists evs, trace w' = (trace w ++ evs)%list /\ written evs = []
  end.
Proof.
  intros Hd. unfold main, bind, os_path_isdir. rewrite Hd.
  destruct (XMLFileTransformer_transform _ w) as [[e|xml] w1] eqn:E.
  - intros H. injection H as <- <-.
    apply XMLFileTransformer_transform_files in E.
    destruct E as (Hf & Hdirs & Hev). auto.
  - intros H.
    apply XMLFileTransformer_transform_files in E.
    destruct E as (Hf & Hdirs & evs & Ht & Hw).
    destruct r as [e|[]].
    + apply open_write_failure in H. subst w'.
      split; [exact Hdirs|]. split; [exact Hf|]. exists evs. auto.
    + apply open_write_success in H. destruct H as (Hf' & Hd' & Ht').
      split; [congruence|].
      exists xml, (evs ++ [EvWrite output xml])%list.
      split; [reflexivity|]. split; [congruence|]. split.
      * rewrite Ht', Ht, app_assoc. reflexivity.
      * rewrite written_app, Hw. reflexivity.
Qed.

End Construction.

(** ** The field [basename] *)

Lemma str_take_drop (n : nat) (s : string) :
  str_take n s ++ str_drop n s = s.
Proof.
  revert s. induction n as [|m IH]; intros [|c r]; simpl; try reflexivity.
  rewrite IH. reflexivity.
Qed.

Lemma rfind_drop (c : ascii) (s : string) (i : nat) :
  rfind c s = Some i ->
  exists r, str_drop i s = String c r /\ str_in c r = false.
Proof.
  revert i. induction s as [|a r IH]; intros i; simpl; [discriminate|].
  destruct (rfind c r) as [j|] eqn:E.
  - intros H. injection H as <-. simpl. apply IH. reflexivity.
  - destruct (Ascii.eqb a c) eqn:Ea; [|discriminate].
    intros H. injection H as <-. apply Ascii.eqb_eq in Ea. subst a.
    exists r. split; [reflexivity|].
    clear IH. induction r as [|b r' IH']; [reflexivity|].
    simpl in E. destruct (rfind c r') as [j|]; [discriminate|].
    destruct (Ascii.eqb b c) eqn:Eb; [discriminate|].
    simpl. rewrite Eb. apply IH'. reflexivity.
Qed.

Lemma basename_no_slash (p : string) :
  str_in "/"%char (os_path_basename p) = false.
Proof.
  unfold os_path_basename. induction p as [|c r IH]; [reflexivity|].
  simpl. destruct (cut_last_slash r) as [h t]. simpl in IH.
  destruct (Ascii.eqb c "/") eqn:E; [exact IH|].
  destruct h; simpl; [rewrite E|]; exact IH.
Qed.

Lemma str_in_take (c : ascii) (n : nat) (s : string) :
  str_in c s = false -> str_in c (str_take n s) = false.
Proof.
  revert s. induction n as [|m IH]; intros [|a r]; simpl; try reflexivity.
  intros H. apply orb_false_iff in H. destruct H as [Ha Hr].
  rewrite Ha. apply IH. exact Hr.
Qed.

Lemma str_in_app (c : ascii) (a b : string) :
  str_in c (a ++ b) = str_in c a || str_in c b.
Proof.
  induction a as [|x r IH]; simpl; [reflexivity|].
  rewrite IH, orb_assoc. reflexivity.
Qed.

(** [splitext] cuts a path in two parts that make it up again; the
    extension is empty, or a dot followed by characters that are
    neither dots nor slashes. *)
Lemma splitext_partition (p : string) :
  let (root, ext) := os_path_splitext p in
  root ++ ext = p /\
  (ext = EmptyString \/
   exists r, ext = String "."%char r /\
             str_in "."%char r = false /\ str_in "/"%char r = false).
Proof.
  unfold os_path_splitext.
  destruct (rfind "." p) as [d|] eqn:Ed;
    [|split; [apply append_nil_r | left; reflexivity]].
  destruct (_ && _) eqn:Ec;
    [|split; [apply append_nil_r | left; reflexivity]].
  split; [apply str_take_drop|]. right.
  destruct (rfind_drop _ _ Ed) as (r & Hr & Hdot).
  exists r. split; [exact Hr|]. split; [exact Hdot|].
  apply andb_true_iff in Ec. destruct Ec as [Hle _].
  apply Nat.leb_le in Hle.
  destruct (rfind "/" p) as [s|] eqn:Es.
  - destruct (rfind_drop _ _ Es) as (r' & Hr' & Hslash).
    assert (Hd : str_drop d p = str_drop (d - s) (str_drop s p)).
    { clear - Hle. revert p d Hle.
      induction s as [|s' IH]; intros p d Hle.
      - rewrite Nat.sub_0_r. destruct p; reflexivity.
      - destruct d as [|d']; [lia|]. destruct p as [|c q].
        + simpl. destruct (d' - s'); reflexivity.
        + simpl. apply IH. lia. }
    rewrite Hr' in Hd. destruct (d - s) as [|k] eqn:Ek; [lia|].
    simpl in Hd. rewrite Hr in Hd.
    assert (Hin : str_in "/" (str_take k r' ++ str_drop k r') = false)
      by (rewrite str_take_drop; exact Hslash).
    rewrite str_in_app, <- Hd in Hin.
    apply orb_false_iff in Hin. destruct Hin as [_ Hin].
    simpl in Hin. exact Hin.
  - assert (Hno : str_in "/" p = false).
    { clear - Es. induction p as [|c q IH]; [reflexivity|].
      simpl in Es. destruct (rfind "/" q); [discriminate|].
      destruct (Ascii.eqb c "/") eqn:E; [discriminate|].
      simpl. rewrite E. apply IH. reflexivity. }
    rewrite <- (str_take_drop d p), str_in_app, Hr in Hno.
    apply orb_false_iff in Hno. destruct Hno as [_ Hno].
    simpl in Hno. exact Hno.
Qed.

(** X18: the field [basename] of a single-file transformer holds no slash,
    and with an extension that is empty or starts at the last dot it
    makes up the file name of the source. *)
Theorem basename_field (source_file : string) :
  str_in "/"%char (XMLFileTransformer_basename source_file) = false /\
  exists ext,
    XMLFileTransformer_basename source_file ++ ext
    = os_path_basename source_file /\
    (ext = EmptyString \/
     exists r, ext = String "."%char r /\ str_in "."%char r = false).
Proof.
  unfold XMLFileTransformer_basename.
  pose proof (splitext_partition (os_path_basename source_file)) as H.
  pose proof (basename_no_slash source_file) as Hs.
  destruct (os_path_splitext (os_path_basename source_file))
    as [root ext].
  destruct H as [Hp He]. cbn [fst]. split.
  - rewrite <- Hp, str_in_app in Hs.
    apply orb_false_iff in Hs. exact (proj1 Hs).
  - exists ext. split; [exact Hp|].
    destruct He as [->|(r & -> & Hd & _)]; [left; reflexivity|].
    right. exists r. split; [reflexivity | exact Hd].
Qed.

(** ** Instances *)

Lemma transform_success_writes_witness :
  cls Sample.book = BookTransformer /\
  exists paths evs,
    fst (glob_xml (source_dir Sample.book) More.ready) = inr paths /\
    trace (snd (@BaseFolderTransformer_transform Sample.platform
                  Sample.book More.ready))
    = (trace More.ready ++ evs)%list /\
    written evs
    = (map (output_file Sample.book)
           (filter (fun src => negb (endswith src "/index.xml")) paths)
       ++ [os_path_join (output_dir Sample.book) "index.xml"])%list.
Proof.
  apply (@transform_success_writes Sample.platform Sample.book More.ready
           (snd (@BaseFolderTransformer_transform Sample.platform
                   Sample.book More.ready))).
  vm_compute. reflexivity.
Defined.

Lemma normalize_ids_keeps_attributes_witness :
  map (fun item => get item "role")
      (iter (normalize_ids
               (Element "section"
                  [("role", "x y"); (id_attrib, "a id1")] None [] None)))
  = [Some "x y"].
Proof.
  rewrite (proj2 (normalize_ids_keeps_attributes
                    (Element "section"
                       [("role", "x y"); (id_attrib, "a id1")] None []
                       None)) "role") by discriminate.
  reflexivity.
Defined.

Lemma transform_file_failure_keeps_files_witness :
  files (snd (@transform_file Sample.platform Sample.book
                "src/broken.xml" Sample.broken))
  = files Sample.broken.
Proof.
  apply (@transform_file_failure_keeps_files Sample.platform Sample.book
           "src/broken.xml" Sample.broken
           (snd (@transform_file Sample.platform Sample.book
                   "src/broken.xml" Sample.broken))
           XMLSyntaxError).
  vm_compute. reflexivity.
Defined.

Lemma output_file_injective_witness :
  os_path_basename "a/foo.xml" = os_path_basename "b/foo.xml".
Proof.
  apply (proj1 (output_file_injective Sample.book "a/foo.xml" "b/foo.xml")).
  reflexivity.
Defined.

Lemma index_skipped_unless_dir_empty_witness :
  @transform_file Sample.platform Sample.book
    (os_path_join "src" "index.xml") Sample.initial
  = (inr tt, Sample.initial).
Proof.
  apply (proj1 (@index_skipped_unless_dir_empty Sample.platform
                  Sample.book)).
  discriminate.
Defined.

Lemma init_makes_output_dir_witness :
  isdir_in (snd (@BaseFolderTransformer__init__ Sample.platform
                   BookTransformer "src" "out" "index.xml" Sample.initial))
           "out" = true.
Proof.
  apply (@init_makes_output_dir Sample.platform BookTransformer
           "src" "out" "index.xml" Sample.initial
           (snd (@BaseFolderTransformer__init__ Sample.platform
                   BookTransformer "src" "out" "index.xml" Sample.initial))
           Sample.book).
  vm_compute. reflexivity.
Defined.

Lemma init_bad_index_witness :
  @BaseFolderTransformer__init__ Sample.platform BookTransformer
    "docs" "out" "index.xml" Sample.initial = (inl IOError, Sample.initial) /\
  @BaseFolderTransformer__init__ Sample.platform BookTransformer
    "src" "out" "index.xml" (Sample.with_index "<document")
  = (inl XMLSyntaxError,
     log (EvRead "src/index.xml") (Sample.with_index "<document")).
Proof.
  split.
  - apply (proj1 (@init_bad_index Sample.platform BookTransformer
                    "docs" "out" "index.xml" Sample.initial)).
    reflexivity.
  - apply (proj2 (@init_bad_index Sample.platform BookTransformer
                    "src" "out" "index.xml"
                    (Sample.with_index "<document"))
             "<document" XMLSyntaxError); reflexivity.
Defined.

Lemma transform_without_title_text_witness :
  fst (@BaseFolderTransformer_transform Sample.platform
         More.untitled_book More.ready) = inl AttributeError.
Proof.
  rewrite (proj2 (@transform_without_title_text Sample.platform)
             More.untitled_book More.ready
             (snd (for_each (@transform_file Sample.platform
                               More.untitled_book)
                     ["src/index.xml"; "src/foo.xml"; "src/bar.xml"]
                     More.ready))
             ["src/index.xml"; "src/foo.xml"; "src/bar.xml"]).
  - reflexivity.
  - reflexivity.
  - discriminate.
  - reflexivity.
  - vm_compute. reflexivity.
Defined.

Lemma base_transform_not_implemented_witness :
  fst (@BaseFolderTransformer_transform Sample.platform
         More.base More.ready) = inl NotImplementedError.
Proof.
  rewrite (proj1 (@base_transform_not_implemented Sample.platform
             More.base More.ready
             (snd (for_each (@transform_file Sample.platform More.base)
                     ["src/index.xml"; "src/foo.xml"; "src/bar.xml"]
                     More.ready))
             ["src/index.xml"; "src/foo.xml"; "src/bar.xml"]
             eq_refl eq_refl ltac:(vm_compute; reflexivity))).
  reflexivity.
Defined.

Lemma main_file_mode_witness :
  dirs (snd (@main Sample.platform "src/foo.xml" "foo.out" "book"
               Sample.initial)) = dirs Sample.initial.
Proof.
  apply (proj1 (@main_file_mode Sample.platform "src/foo.xml" "foo.out"
                  "book" Sample.initial
                  (snd (@main Sample.platform "src/foo.xml" "foo.out"
                          "book" Sample.initial))
                  (inr tt) eq_refl ltac:(vm_compute; reflexivity))).
Defined.
